(** * ftdc/cmd/parser.go: the FTDC plotting CLI

    A shallow embedding of [ftdc/cmd/parser.go] (package [main]): the
    [gnuplotWriter] that routes readings into one data file per metric and
    compiles the top-level gnuplot script, and the interactive command loop
    of [main] that holds the time window ([graphOptions]).

    The parts of the Go standard library the program calls ([strings],
    [time], [os], [fmt]) are modelled in the first modules. What the Go
    runtime or the environment decides (the result of [time.Parse], the
    iteration order of a map, the outcome of the [gnuplot] process) is a
    field of the class [Runtime], so that the theorems hold for all of
    them; the model of Go's parser in [GoTime] is the instance the program
    is run on in the examples. *)

From Stdlib Require Import ZArith Ascii String DecimalString.
From stdpp Require Import base option list gmap strings fin_maps.

(** ** Package [strings] *)

Module GoStrings.

(** [strings.HasPrefix(s, prefix)]. *)
Definition HasPrefix (s prefix : string) : bool := String.prefix prefix s.

(** The six bytes of Go's [asciiSpace] table. *)
Definition asciiSpace (c : ascii) : bool :=
  match c with
  | "009" | "010" | "011" | "012" | "013" | " " => true
  | _ => false
  end%char.

(** The two-byte UTF-8 encodings that [unicode.IsSpace] accepts:
    U+0085 (C2 85) and U+00A0 (C2 A0). *)
Definition space2 (a b : ascii) : bool :=
  (Ascii.eqb a "194" && (Ascii.eqb b "133" || Ascii.eqb b "160"))%char.

(** The three-byte ones: U+1680 (E1 9A 80), U+2000..U+200A (E2 80 80..8A),
    U+2028, U+2029, U+202F (E2 80 A8, A9, AF), U+205F (E2 81 9F) and
    U+3000 (E3 80 80). *)
Definition space3 (a b c : ascii) : bool :=
  ((Ascii.eqb a "225" && Ascii.eqb b "154" && Ascii.eqb c "128")
   || (Ascii.eqb a "226" && Ascii.eqb b "128"
       && (((128 <=? N_of_ascii c)%N && (N_of_ascii c <=? 138)%N)
           || Ascii.eqb c "168" || Ascii.eqb c "169" || Ascii.eqb c "175"))
   || (Ascii.eqb a "226" && Ascii.eqb b "129" && Ascii.eqb c "159")
   || (Ascii.eqb a "227" && Ascii.eqb b "128" && Ascii.eqb c "128"))%char.

(** Strips the white space runes at the head of [s]. With [back] the
    bytes of [s] are read last byte first (the string is reversed), so a
    multi-byte rune shows its last byte first. *)
Fixpoint trimHead (back : bool) (s : string) : string :=
  match s with
  | EmptyString => EmptyString
  | String a r1 =>
      if asciiSpace a then trimHead back r1 else
      match r1 with
      | EmptyString => s
      | String b r2 =>
          if (if back then space2 b a else space2 a b) then trimHead back r2 else
          match r2 with
          | EmptyString => s
          | String c r3 =>
              if (if back then space3 c b a else space3 a b c)
              then trimHead back r3 else s
          end
      end
  end.

(** [strings.TrimSpace(s)]: all leading and trailing white space removed,
    as defined by Unicode. *)
Definition TrimSpace (s : string) : string :=
  String.rev (trimHead true (String.rev (trimHead false s))).

(** [strings.Cut] for a one-byte separator: the text before and after its
    first occurrence. *)
Fixpoint cut (sep : ascii) (s : string) : option (string * string) :=
  match s with
  | EmptyString => None
  | String a r =>
      if Ascii.eqb a sep then Some (EmptyString, r)
      else match cut sep r with
           | Some (before, after) => Some (String a before, after)
           | None => None
           end
  end.

(** [strings.SplitN(s, sep, n)] for a one-byte separator [sep] and
    [n >= 0]: at most [n] substrings, the last one the unsplit
    remainder; [n = 0] gives the empty slice. *)
Fixpoint SplitN (s : string) (sep : ascii) (n : nat) : list string :=
  match n with
  | 0 => []
  | 1 => [s]
  | S n' =>
      match cut sep s with
      | Some (before, after) => before :: SplitN after sep n'
      | None => [s]
      end
  end.

(** [strings.ReplaceAll(s, old, new)] for a one-byte [old]. *)
Fixpoint ReplaceAll (s : string) (old : ascii) (new : string) : string :=
  match s with
  | EmptyString => EmptyString
  | String a r =>
      if Ascii.eqb a old then new +:+ ReplaceAll r old new
      else String a (ReplaceAll r old new)
  end.

End GoStrings.

(** ** Package [time] *)

Module GoTime.
Local Open Scope Z_scope.

Definition isDigit (c : ascii) : bool :=
  let n := N_of_ascii c in ((48 <=? n) && (n <=? 57))%N.

Definition digit (c : ascii) : Z := Z.of_N (N_of_ascii c) - 48.

(** [getnum(s, fixed)]: a one- or two-digit number at the head of [s];
    with [fixed], two digits are required. *)
Definition getnum (s : string) (fixed : bool) : option (Z * string) :=
  match s with
  | String a r =>
      if isDigit a then
        match r with
        | String b r' =>
            if isDigit b then Some (digit a * 10 + digit b, r')
            else if fixed then None else Some (digit a, r)
        | EmptyString => if fixed then None else Some (digit a, r)
        end
      else None
  | EmptyString => None
  end.

(** The layout element [2006]: exactly four digits. *)
Definition getyear (s : string) : option (Z * string) :=
  match s with
  | String a (String b (String c (String d r))) =>
      if isDigit a && isDigit b && isDigit c && isDigit d
      then Some (((digit a * 10 + digit b) * 10 + digit c) * 10 + digit d, r)
      else None
  | _ => None
  end.

(** A literal byte of the layout. *)
Definition skip (c : ascii) (s : string) : option string :=
  match s with
  | String a r => if Ascii.eqb a c then Some r else None
  | EmptyString => None
  end.

Fixpoint skipDigits (s : string) : string :=
  match s with
  | String a r => if isDigit a then skipDigits r else s
  | EmptyString => s
  end.

(** A fractional second is accepted after the seconds although the layout
    has none: a comma or a period followed by at least one digit. *)
Definition skipFraction (s : string) : string :=
  match s with
  | String a (String b r) =>
      if (Ascii.eqb a "." || Ascii.eqb a ",") && isDigit b
      then skipDigits r else s
  | _ => s
  end.

Definition isLeap (year : Z) : bool :=
  (year mod 4 =? 0) && (negb (year mod 100 =? 0) || (year mod 400 =? 0)).

Definition daysIn (month year : Z) : Z :=
  if month =? 2 then (if isLeap year then 29 else 28)
  else if (month =? 4) || (month =? 6) || (month =? 9) || (month =? 11)
  then 30 else 31.

(** Days between 1970-01-01 and the given civil date (proleptic
    Gregorian calendar). *)
Definition daysSinceEpoch (year month day : Z) : Z :=
  let y := if month <=? 2 then year - 1 else year in
  let era := y / 400 in
  let yoe := y - era * 400 in
  let mp := (month + 9) mod 12 in
  let doy := (153 * mp + 2) / 5 + day - 1 in
  let doe := yoe * 365 + yoe / 4 - yoe / 100 + doy in
  era * 146097 + doe - 719468.

(** [t, err := time.Parse("2006-01-02T15:04:05", value)] followed by
    [t.Unix()]; [None] when [err != nil]. The layout names no zone, so
    the time is in UTC. *)
Definition ParseUnix (value : string) : option Z :=
  '(year, value) ← getyear value;
  value ← skip "-" value;
  '(month, value) ← getnum value true;
  if negb ((1 <=? month) && (month <=? 12)) then None else
  value ← skip "-" value;
  '(day, value) ← getnum value true;
  value ← skip "T" value;
  '(hour, value) ← getnum value false;
  if negb (hour <? 24) then None else
  value ← skip ":" value;
  '(min, value) ← getnum value true;
  if negb (min <? 60) then None else
  value ← skip ":" value;
  '(sec, value) ← getnum value true;
  if negb (sec <? 60) then None else
  let value := skipFraction value in
  if negb (String.eqb value "") then None else
  if negb ((1 <=? day) && (day <=? daysIn month year)) then None else
  Some (daysSinceEpoch year month day * 86400 + hour * 3600 + min * 60 + sec).

End GoTime.

(** ** Values of the program *)

(** [int64] values are integers of [Z]; the program compares and stores
    them and never does arithmetic on them. *)
Definition MaxInt64 : Z := 9223372036854775807.

(** A [float32] is kept as its IEEE-754 bit pattern. *)
Definition float32 : Type := Z.

(** A Go [error] value: [io.EOF], or any other error with its text. *)
Inductive error : Type :=
| EOF
| Err (msg : string).

Definition isEOF (err : option error) : bool :=
  match err with
  | Some EOF => true
  | _ => false
  end.

Inductive result (A : Type) : Type :=
| Ok (a : A)
| Fail (err : error).
Arguments Ok {A} a.
Arguments Fail {A} err.

(** An operand of a [fmt] call. *)
Inductive arg : Type :=
| AStr (s : string)
| AErr (e : error).

(** What the program writes to standard output: the calls of [fmt.Print],
    [fmt.Println] and [fmt.Printf] with their operands, in order. *)
Inductive Output : Type :=
| Print (s : string)
| Println (args : list string)
| PrintlnErr (s : string) (e : error)
| Printf (format : string) (args : list arg).

(** A line of a file: text, or the line [writelnf(f, "%v %.5f", t, v)] of
    a data file, kept as the pair it is formatted from. *)
Inductive Line : Type :=
| Text (s : string)
| Point (timeSeconds : Z) (metricValue : float32).

(** A file of the world. An [*os.File] of the program is a handle on one:
    its index in the table [files]. *)
Record File : Type := mkFile {
  fileName : string;
  fileLines : list Line;
  fileClosed : bool
}.

(** The world outside the program: the files it created (the files of
    other processes, such as the image [gnuplot] writes, are not in the
    table), what it printed, the script paths [gnuplot] was run on, and the
    state of the sources of randomness (names of temporary files, iteration
    order of maps). *)
Record World : Type := mkWorld {
  files : list File;
  stdout : list Output;
  execs : list string;
  entropy : nat
}.

Definition emptyWorld : World :=
  {| files := []; stdout := []; execs := []; entropy := 0 |}.

(** Decoded data (package [ftdc], not part of this file). *)

Record Reading : Type := mkReading {
  MetricName : string;
  Value : float32
}.

(** Modelled from the spec: the type [ftdc.FlatDatum] is declared in package
    [ftdc]; a datum holds one timestamp, here the value of
    [datum.ConvertedTime().Unix()], and its named readings. *)
Record FlatDatum : Type := mkFlatDatum {
  ConvertedTimeUnix : Z;
  Readings : list Reading
}.

(** ** What the runtime and the environment decide *)

Class Runtime : Type := {
  (** [t, err := time.Parse("2006-01-02T15:04:05", s)] and [t.Unix()]. *)
  timeParse : string → result Z;
  (** The order in which a [for ... range] statement visits a map: any
      order, each entry once. *)
  mapRange : nat → gmap string nat → list (string * nat);
  mapRange_perm : ∀ seed m, mapRange seed m ≡ₚ map_to_list m;
  (** [exec.Command("gnuplot", filename).CombinedOutput()]: [None] when
      [err == nil], else the error and the output. *)
  gnuplot : list File → string → option (error * string)
}.

(** ** Effects: a state and panic monad over the world *)

Definition M (A : Type) : Type := World → option (A * World).

Definition ret {A} (a : A) : M A := λ w, Some (a, w).

Definition bind {A B} (c : M A) (k : A → M B) : M B :=
  λ w, match c w with
       | Some (a, w') => k a w'
       | None => None
       end.

(** [panic(err)]. *)
Definition panic {A} : M A := λ _, None.

Notation "x <- c ;; k" := (bind c (λ x, k))
  (at level 20, c at level 99, k at level 200, only parsing).
Notation "' p <- c ;; k" := (bind c (λ x, match x with p => k end))
  (at level 20, p pattern, c at level 99, k at level 200, only parsing).

(** The [for _, x := range l] loop over a slice, threading the receiver. *)
Fixpoint forEach {A S} (f : S → A → M S) (l : list A) (s : S) : M S :=
  match l with
  | [] => ret s
  | x :: l' => s' <- f s x ;; forEach f l' s'
  end.

(** Decimal text of a non-negative number, as [%d] and [%v] print it. *)
Definition decimal (n : nat) : string :=
  NilZero.string_of_uint (Nat.to_uint n).

(** ** Packages [os], [fmt] and [os/exec] *)

(** The file system of the model has no faults of its own (no full disk,
    no missing permission, no limit on the number of open files):
    [os.MkdirTemp] and [os.CreateTemp] return, where the program panics on
    their error, and a write fails only on what the program can cause
    itself, a write to a closed file or the use of a handle that does not
    exist. A run of the model is a run of the program in which the
    operating system refuses nothing. *)

(** The world after [o] is written to standard output. *)
Definition say (o : Output) (w : World) : World :=
  {| files := files w; stdout := stdout w ++ [o];
     execs := execs w; entropy := entropy w |}.

Definition output (o : Output) : M unit := λ w, Some (tt, say o w).

(** [nolintPrintln(str...)]. *)
Definition nolintPrintln (str : list string) : M unit := output (Println str).

(** A fresh random suffix for the name of a temporary file. *)
Definition random : M nat :=
  λ w, Some (entropy w, {| files := files w; stdout := stdout w;
                           execs := execs w; entropy := S (entropy w) |}).

(** [os.MkdirTemp("", pattern)]: a new directory under the default
    directory for temporary files. *)
Definition MkdirTemp (pattern : string) : M string :=
  n <- random ;; ret ("/tmp/" +:+ pattern +:+ decimal n).

(** [os.CreateTemp(dir, pattern)]: a new, open and empty file. *)
Definition CreateTemp (dir pattern : string) : M nat :=
  n <- random ;;
  λ w, Some (length (files w),
             {| files := files w ++ [mkFile (dir +:+ "/" +:+ pattern +:+ decimal n) [] false];
                stdout := stdout w; execs := execs w; entropy := entropy w |}).

(** [file.Name()]. *)
Definition Name (file : nat) : M string :=
  λ w, match files w !! file with
       | Some f => Some (fileName f, w)
       | None => None
       end.

(** [file.Close()] under [utils.UncheckedErrorFunc], which drops its error
    (the line it logs for one is not modelled). *)
Definition Close (file : nat) : M unit :=
  λ w, match files w !! file with
       | Some f =>
           Some (tt, {| files := <[file := mkFile (fileName f) (fileLines f) true]> (files w);
                        stdout := stdout w; execs := execs w; entropy := entropy w |})
       | None => None
       end.

(** [writeln] is a wrapper for [Fprintln] that panics on any error: here,
    a write to a closed file. *)
Definition writeln (toWrite : nat) (str : Line) : M unit :=
  λ w, match files w !! toWrite with
       | Some f =>
           if fileClosed f then None
           else Some (tt, {| files := <[toWrite := mkFile (fileName f) (fileLines f ++ [str]) false]> (files w);
                             stdout := stdout w; execs := execs w; entropy := entropy w |})
       | None => None
       end.

(** [for k, v := range m]: the entries of [m] in the order the runtime
    picks this time. *)
Definition rangeMap `{Runtime} (m : gmap string nat) : M (list (string * nat)) :=
  n <- random ;; ret (mapRange n m).

(** [exec.Command("gnuplot", filename).CombinedOutput()]. The files of
    the program are as they were; what the process writes is outside the
    table. *)
Definition runGnuplot `{Runtime} (filename : string) : M (option (error * string)) :=
  λ w, Some (gnuplot (files w) filename,
             {| files := files w; stdout := stdout w;
                execs := execs w ++ [filename]; entropy := entropy w |}).

(** ** [gnuplotWriter] *)

Record graphOptions : Type := mkGraphOptions {
  minTimeSeconds : Z;
  maxTimeSeconds : Z
}.

Record gnuplotWriter : Type := mkGnuplotWriter {
  metricFiles : gmap string nat;
  tempdir : string;
  options : graphOptions
}.

Definition defaultGraphOptions : graphOptions :=
  {| minTimeSeconds := 0; maxTimeSeconds := MaxInt64 |}.

Definition newGnuPlotWriter (graphOptions : graphOptions) : M gnuplotWriter :=
  tempdir <- MkdirTemp "ftdc_parser" ;;
  ret {| metricFiles := ∅; tempdir := tempdir; options := graphOptions |}.

Definition getDatafile (gpw : gnuplotWriter) (metricName : string)
  : M (nat * gnuplotWriter) :=
  match metricFiles gpw !! metricName with
  | Some datafile => ret (datafile, gpw)
  | None =>
      datafile <- CreateTemp (tempdir gpw) "" ;;
      ret (datafile,
           {| metricFiles := <[metricName := datafile]> (metricFiles gpw);
              tempdir := tempdir gpw; options := options gpw |})
  end.

Definition addPoint (gpw : gnuplotWriter) (timeSeconds : Z)
    (metricName : string) (metricValue : float32) : M gnuplotWriter :=
  if ((timeSeconds <? minTimeSeconds (options gpw))
      || (timeSeconds >? maxTimeSeconds (options gpw)))%Z
  then ret gpw
  else
    '(datafile, gpw) <- getDatafile gpw metricName ;;
    _ <- writeln datafile (Point timeSeconds metricValue) ;;
    ret gpw.

Definition addFlatDatum (gpw : gnuplotWriter) (datum : FlatDatum) : M gnuplotWriter :=
  forEach (λ gpw reading,
             addPoint gpw (ConvertedTimeUnix datum) (MetricName reading) (Value reading))
          (Readings datum) gpw.

(** The lines of the top-level script. *)

Definition termLine (metrics : nat) : string :=
  "set term png size " +:+ decimal 1000 +:+ ", " +:+ decimal (200 * metrics).

Definition layoutLine (metrics : nat) : string :=
  "set multiplot layout " +:+ decimal metrics
  +:+ ",1 margins 0.05,0.9, 0.05,0.9 spacing screen 0, char 5".

Definition plotLine (fileName metricName : string) : string :=
  "plot '" +:+ fileName +:+ "' using 1:2 with lines linestyle 7 lw 4 title '"
  +:+ GoStrings.ReplaceAll metricName "_" "\_" +:+ "'".

(** The lines before the plot directives. *)
Definition preamble (metrics : nat) : list Line :=
  [ Text (termLine metrics);
    Text "set output 'plot.png'";
    Text (layoutLine metrics);
    Text "set timefmt '%s'";
    Text "set format x '%H:%M:%S'";
    Text "set xlabel 'Time'";
    Text "set xdata time";
    Text "set yrange [0:*]" ].

(** The body of the loop of [CompileAndClose] over [gpw.metricFiles]. *)
Definition plotEntry (gnuFile : nat) (_ : unit) (entry : string * nat) : M unit :=
  let '(metricName, file) := entry in
  name <- Name file ;;
  _ <- writeln gnuFile (Text (plotLine name metricName)) ;;
  Close file.

(** [CompileAndClose] writes out the top-level file and returns its name. *)
Definition CompileAndClose `{Runtime} (gpw : gnuplotWriter) : M string :=
  gnuFile <- CreateTemp (tempdir gpw) "main" ;;
  _ <- writeln gnuFile (Text (termLine (size (metricFiles gpw)))) ;;
  _ <- nolintPrintln ["Output file: `plot.png`"] ;;
  _ <- writeln gnuFile (Text "set output 'plot.png'") ;;
  _ <- writeln gnuFile (Text (layoutLine (size (metricFiles gpw)))) ;;
  _ <- writeln gnuFile (Text "set timefmt '%s'") ;;
  _ <- writeln gnuFile (Text "set format x '%H:%M:%S'") ;;
  _ <- writeln gnuFile (Text "set xlabel 'Time'") ;;
  _ <- writeln gnuFile (Text "set xdata time") ;;
  _ <- writeln gnuFile (Text "set yrange [0:*]") ;;
  entries <- rangeMap (metricFiles gpw) ;;
  _ <- forEach (plotEntry gnuFile) entries tt ;;
  filename <- Name gnuFile ;;
  _ <- Close gnuFile ;;
  ret filename.

(** [Render] runs the compiler and invokes gnuplot. *)
Definition Render `{Runtime} (gpw : gnuplotWriter) : M unit :=
  filename <- CompileAndClose gpw ;;
  failure <- runGnuplot filename ;;
  match failure with
  | Some (err, outputBytes) =>
      _ <- output (PrintlnErr "error running gnuplot:" err) ;;
      nolintPrintln ["gnuplot output:"; outputBytes]
  | None => ret tt
  end.

(** ** The command loop of [main] *)

(** The variables of [main] that live across iterations. *)
Record mainState : Type := mkMainState {
  render : bool;
  graphOpts : graphOptions
}.

(** How an iteration of the [for] loop ends: at the top of the loop again
    (the end of the body, or [continue]), or with [return]. *)
Inductive Flow : Type :=
| Continue (st : mainState)
| Return.

Definition newline : string := String "010" "".
Definition dquote : string := String "034" "".

Definition startErrorFormat : string :=
  "Error parsing start time. Working example: `2024-09-24T18:00:00` Inp: %q Err: %v"
  +:+ newline.

Definition endErrorFormat : string :=
  "Error parsing end time. Working example: `2024-09-24T18:00:00` Inp: %q Err: %v"
  +:+ newline.

Definition unknownCommand : string := "Unknown command. Type `h` for help.".

Definition printHelp : M unit :=
  _ <- nolintPrintln ["range <start> <end>"] ;;
  _ <- nolintPrintln ["-  Only plot datapoints within the given range. "
                      +:+ dquote +:+ "zoom in" +:+ dquote] ;;
  _ <- nolintPrintln ["-  E.g: range 2024-09-24T18:00:00 2024-09-24T18:30:00"] ;;
  _ <- nolintPrintln ["-       range start 2024-09-24T18:30:00"] ;;
  _ <- nolintPrintln ["-       range 2024-09-24T18:00:00 end"] ;;
  _ <- nolintPrintln ["-  All times in UTC"] ;;
  _ <- nolintPrintln [] ;;
  _ <- nolintPrintln ["reset range"] ;;
  _ <- nolintPrintln ["-  Unset any prior range. "
                      +:+ dquote +:+ "zoom out to full" +:+ dquote] ;;
  _ <- nolintPrintln [] ;;
  nolintPrintln ["`quit` or Ctrl-d to exit"].

Section Main.
Context `{Runtime}.

(** The result of [ftdc.Parse(ftdcFile)]. *)
Variable data : list FlatDatum.

(** Lines 196 to 199: a new writer, and every datum added to it. *)
Definition route (graphOptions : graphOptions) : M gnuplotWriter :=
  gpw <- newGnuPlotWriter graphOptions ;;
  forEach addFlatDatum data gpw.

(** The second half of the [range] case, from [if end == "end"]. The
    variable [render] is [true] here, by the assignment after the render
    block. *)
Definition rangeEnd (graphOptions : graphOptions) (end_ : string) : M Flow :=
  if String.eqb end_ "end" then
    ret (Continue {| render := true;
                     graphOpts := {| minTimeSeconds := minTimeSeconds graphOptions;
                                     maxTimeSeconds := MaxInt64 |} |})
  else
    match timeParse end_ with
    | Fail err =>
        _ <- output (Printf endErrorFormat [AStr end_; AErr err]) ;;
        (* continue *)
        ret (Continue {| render := true; graphOpts := graphOptions |})
    | Ok unix =>
        ret (Continue {| render := true;
                         graphOpts := {| minTimeSeconds := minTimeSeconds graphOptions;
                                         maxTimeSeconds := unix |} |})
    end.

(** The first half of the [range] case, from [if start == "start"]. *)
Definition rangeStart (graphOptions : graphOptions) (start end_ : string) : M Flow :=
  if String.eqb start "start" then
    rangeEnd {| minTimeSeconds := 0;
                maxTimeSeconds := maxTimeSeconds graphOptions |} end_
  else
    match timeParse start with
    | Fail err =>
        _ <- output (Printf startErrorFormat [AStr start; AErr err]) ;;
        (* continue *)
        ret (Continue {| render := true; graphOpts := graphOptions |})
    | Ok unix =>
        rangeEnd {| minTimeSeconds := unix;
                    maxTimeSeconds := maxTimeSeconds graphOptions |} end_
    end.

(** The [range] case. Indexing [pieces] out of range panics. *)
Definition rangeCommand (graphOptions : graphOptions) (cmd : string) : M Flow :=
  let pieces := GoStrings.SplitN cmd " " 3 in
  match pieces !! 1, pieces !! 2 with
  | Some start, Some end_ => rangeStart graphOptions start end_
  | _, _ => panic
  end.

(** The [switch] on the line that was read. [render] is [true] when it
    is entered. *)
Definition command (graphOptions : graphOptions) (cmd : string)
    (err : option error) : M Flow :=
  if isEOF err then
    _ <- nolintPrintln [newline +:+ "Exiting..."] ;;
    ret Return
  else if String.eqb cmd "quit" then
    _ <- nolintPrintln ["Exiting..."] ;;
    ret Return
  else if String.eqb cmd "h" || String.eqb cmd "help" then
    _ <- printHelp ;;
    ret (Continue {| render := false; graphOpts := graphOptions |})
  else if GoStrings.HasPrefix cmd "range " then
    rangeCommand graphOptions cmd
  else if GoStrings.HasPrefix cmd "reset range" then
    ret (Continue {| render := true; graphOpts := defaultGraphOptions |})
  else if String.length cmd =? 0 then
    ret (Continue {| render := false; graphOpts := graphOptions |})
  else
    _ <- nolintPrintln [unknownCommand] ;;
    ret (Continue {| render := false; graphOpts := graphOptions |}).

(** The render block at the top of the loop body. *)
Definition renderBlock (st : mainState) : M unit :=
  if render st then
    gpw <- route (graphOpts st) ;;
    Render gpw
  else ret tt.

(** One iteration of the [for] loop; [read] is what
    [stdinReader.ReadString] returns in it. *)
Definition iteration (st : mainState) (read : string * option error) : M Flow :=
  _ <- renderBlock st ;;
  _ <- output (Print "$ ") ;;
  let '(cmd, err) := read in
  let cmd := GoStrings.TrimSpace cmd in
  command (graphOpts st) cmd err.

(** The loop, for as long as there is input: it ends with [Return] when
    [main] returns, and with [Continue st] when the loop is back at its
    top in state [st] waiting for input not yet there. *)
Fixpoint loop (reads : list (string * option error)) (st : mainState) : M Flow :=
  match reads with
  | [] => ret (Continue st)
  | read :: reads' =>
      flow <- iteration st read ;;
      match flow with
      | Continue st' => loop reads' st'
      | Return => ret Return
      end
  end.

(** [main] from the first iteration on. *)
Definition initialState : mainState :=
  {| render := true; graphOpts := defaultGraphOptions |}.

End Main.

(** ** A runtime to run the model on *)

(** [time.Parse] on the layout of the program. The text of the error is
    abridged: Go's names the input, the layout and the element that did
    not parse. *)
Definition goTimeParse (s : string) : result Z :=
  match GoTime.ParseUnix s with
  | Some unix => Ok unix
  | None => Fail (Err "parsing time")
  end.

(** Go's parser on the layout of the program; the map is visited in the
    order of [map_to_list]; [gnuplot] succeeds. *)
Definition goRuntime : Runtime :=
  {| timeParse := goTimeParse;
     mapRange := λ _ m, map_to_list m;
     mapRange_perm := λ _ m, reflexivity (map_to_list m);
     gnuplot := λ _ _, None |}.

(** The same, the map visited in the opposite order. *)
Definition goRuntimeRev : Runtime :=
  {| timeParse := goTimeParse;
     mapRange := λ _ m, reverse (map_to_list m);
     mapRange_perm := λ _ m, reverse_Permutation (map_to_list m);
     gnuplot := λ _ _, None |}.


Definition line (s : string) : string * option error := (s +:+ newline, None).

(** The data of the scenario of the specification: [cpu] is 1.0 at 100 and
    2.0 at 200, [mem] is 5.0 at 150 (the values as bit patterns). *)
Definition scenario : list FlatDatum :=
  [ mkFlatDatum 100 [mkReading "cpu" 1065353216%Z];
    mkFlatDatum 200 [mkReading "cpu" 1073741824%Z];
    mkFlatDatum 150 [mkReading "mem" 1084227584%Z] ].

(** ** Vocabulary of the properties *)

(** A printable ASCII byte other than the space: 0x21 to 0x7E. *)
Definition graphic (c : ascii) : bool :=
  let n := N_of_ascii c in ((33 <=? n) && (n <=? 126))%N.

(** A string that starts with a graphic byte. *)
Definition headGraphic (s : string) : bool :=
  match s with
  | String a _ => graphic a
  | EmptyString => false
  end.

(** A bound of a [range] command as the operator types it: not empty,
    graphic bytes only. *)
Fixpoint allGraphic (s : string) : bool :=
  match s with
  | String a r => graphic a && allGraphic r
  | EmptyString => true
  end.

Definition token (s : string) : Prop := s ≠ "" ∧ allGraphic s = true.

(** The window test of [addPoint], as the inclusive interval it is. *)
Definition inWindow (o : graphOptions) (t : Z) : Prop :=
  (minTimeSeconds o ≤ t ≤ maxTimeSeconds o)%Z.

#[local] Instance inWindow_dec o t : Decision (inWindow o t).
Proof. unfold inWindow. apply _. Defined.

(** The series of metric [m]: the lines of its data file, when it has
    one. *)
Definition series (gpw : gnuplotWriter) (w : World) (m : string) : option (list Line) :=
  match metricFiles gpw !! m with
  | Some h => fileLines <$> files w !! h
  | None => None
  end.

(** The points that [addPoint] is to write for metric [m], given the
    readings of one datum. *)
Fixpoint pointsOfReadings (o : graphOptions) (t : Z) (rs : list Reading) (m : string)
  : list Line :=
  match rs with
  | [] => []
  | r :: rs' =>
      (if decide (MetricName r = m ∧ inWindow o t) then [Point t (Value r)] else [])
      ++ pointsOfReadings o t rs' m
  end.

(** The same for the whole decoded data, in the order of arrival. *)
Fixpoint pointsOf (o : graphOptions) (data : list FlatDatum) (m : string) : list Line :=
  match data with
  | [] => []
  | d :: data' =>
      pointsOfReadings o (ConvertedTimeUnix d) (Readings d) m ++ pointsOf o data' m
  end.

(** The invariant of a writer while points are routed to it: every metric
    of the map has an open data file of its own that holds the points [pts]
    of the metric, at least one; the other metrics have no point. *)
Record routed (gpw : gnuplotWriter) (w : World) (pts : string → list Line) : Prop := {
  routed_some : ∀ m h, metricFiles gpw !! m = Some h →
    ∃ name, files w !! h = Some (mkFile name (pts m) false) ∧ pts m ≠ [];
  routed_none : ∀ m, metricFiles gpw !! m = None → pts m = [];
  routed_inj : ∀ m1 m2 h,
    metricFiles gpw !! m1 = Some h → metricFiles gpw !! m2 = Some h → m1 = m2
}.

(** What a step of routing leaves alone. *)
Definition sameOutside (w w' : World) : Prop :=
  stdout w' = stdout w ∧ execs w' = execs w.

Definition nameAt (w : World) (h : nat) : string :=
  from_option fileName "" (files w !! h).

(** The plot directives for the entries of the map, in the given order. *)
Definition plotLines (w : World) (entries : list (string * nat)) : list Line :=
  map (λ entry, Text (plotLine (nameAt w entry.2) entry.1)) entries.

(** The names of the readings that the window admits, in the order
    [addPoint] sees them. *)
Fixpoint namesOfReadings (o : graphOptions) (t : Z) (rs : list Reading) : list string :=
  match rs with
  | [] => []
  | r :: rs' =>
      (if decide (inWindow o t) then [MetricName r] else [])
      ++ namesOfReadings o t rs'
  end.

Fixpoint routedNames (o : graphOptions) (data : list FlatDatum) : list string :=
  match data with
  | [] => []
  | d :: data' =>
      namesOfReadings o (ConvertedTimeUnix d) (Readings d) ++ routedNames o data'
  end.

(** The first occurrence of each name, in order. *)
Fixpoint firstOccurrences (l : list string) : list string :=
  match l with
  | [] => []
  | x :: l' => x :: filter (λ y, y ≠ x) (firstOccurrences l')
  end.

(** The metrics of a render pass in the order they are first seen, which
    is the order in which their data files are created. *)
Definition firstSeen (o : graphOptions) (data : list FlatDatum) : list string :=
  firstOccurrences (routedNames o data).

(** The plot directives of a script: its lines after the eight lines of
    the preamble. *)
Definition plotDirectives (script : File) : list Line := drop 8 (fileLines script).

(** The plot directives for the metrics [names], in that order, each
    with the data file the writer has for it. *)
Definition plotsFor (gpw : gnuplotWriter) (w : World) (names : list string) : list Line :=
  map (λ m, Text (plotLine (nameAt w (default 0 (metricFiles gpw !! m))) m)) names.


(** A writer with a data file for [cpu] that holds one point, and the
    window [100, 150]. *)
Definition writerWithCpu : gnuplotWriter :=
  {| metricFiles := {["cpu" := 0]};
     tempdir := "/tmp/ftdc_parser0";
     options := {| minTimeSeconds := 100; maxTimeSeconds := 150 |} |}.

Definition worldWithCpu : World :=
  {| files := [mkFile "/tmp/ftdc_parser0/1" [Point 100 1065353216%Z] false];
     stdout := []; execs := []; entropy := 2 |}.

Definition pointsWithCpu (m : string) : list Line :=
  if decide (m = "cpu") then [Point 100 1065353216%Z] else [].

(** All the points of metric [m] in the decoded data, whatever their
    time, in the order of arrival. *)
Fixpoint readingsOf (data : list FlatDatum) (m : string) : list Line :=
  match data with
  | [] => []
  | d :: data' =>
      map (λ r, Point (ConvertedTimeUnix d) (Value r))
          (filter (λ r, MetricName r = m) (Readings d))
      ++ readingsOf data' m
  end.

(** The title of a plot directive for a metric name: line 159. *)
Definition escapeTitle (metricName : string) : string :=
  GoStrings.ReplaceAll metricName "_" "\_".

(** Reads an escaped title back: a backslash right before an underscore
    is dropped. *)
Fixpoint unescapeTitle (s : string) : string :=
  match s with
  | String "\" (String "_" r) => String "_" (unescapeTitle r)
  | String a r => String a (unescapeTitle r)
  | EmptyString => EmptyString
  end.

(** Whether [s] has an underscore that no backslash precedes; [escaped]
    tells whether the byte before [s] is a backslash. *)
Fixpoint bareUnderscore (escaped : bool) (s : string) : bool :=
  match s with
  | String a r =>
      (Ascii.eqb a "_" && negb escaped) || bareUnderscore (Ascii.eqb a "\") r
  | EmptyString => false
  end.

(** The handles of the data files of a writer. *)
Definition dataFiles (gpw : gnuplotWriter) : list nat :=
  (map_to_list (metricFiles gpw)).*2.

(** * Properties *)

(** ** Strings *)

Section StringFacts.
Import GoStrings.

Lemma app_cons (a : ascii) (s t : string) : String a s +:+ t = String a (s +:+ t).
Proof. reflexivity. Qed.

Lemma app_empty_l (t : string) : "" +:+ t = t.
Proof. reflexivity. Qed.

Lemma app_empty_r (s : string) : s +:+ "" = s.
Proof. induction s as [|a s IH]; [done|]. by rewrite app_cons, IH. Qed.

Lemma app_assoc' (s t u : string) : (s +:+ t) +:+ u = s +:+ t +:+ u.
Proof. induction s as [|a s IH]; [done|]. by rewrite !app_cons, IH. Qed.

Lemma rev_app_spec (s t : string) : String.rev_app s t = String.rev s +:+ t.
Proof.
  unfold String.rev. revert t.
  induction s as [|a s IH]; intros t; simpl; [done|].
  rewrite IH, (IH (String a "")). by rewrite app_assoc'.
Qed.

Lemma rev_cons (a : ascii) (s : string) :
  String.rev (String a s) = String.rev s +:+ String a "".
Proof. unfold String.rev at 1. simpl. by rewrite rev_app_spec. Qed.

Lemma rev_app (s t : string) : String.rev (s +:+ t) = String.rev t +:+ String.rev s.
Proof.
  induction s as [|a s IH]; [by rewrite app_empty_l, app_empty_r|].
  by rewrite app_cons, !rev_cons, IH, app_assoc'.
Qed.

Lemma rev_rev (s : string) : String.rev (String.rev s) = s.
Proof.
  induction s as [|a s IH]; [done|].
  by rewrite rev_cons, rev_app, IH.
Qed.

Lemma prefix_app (p s : string) :
  String.prefix p s = true ↔ ∃ r, s = p +:+ r.
Proof.
  revert s. induction p as [|a p IH]; intros s.
  - split; [intros _; exists s; reflexivity|by destruct s].
  - destruct s as [|b s]; simpl; [split; [done|by intros [r ?]]|].
    destruct (ascii_dec a b) as [->|Hne].
    + rewrite IH. split; intros [r Hr]; exists r.
      * by rewrite app_cons, Hr.
      * rewrite app_cons in Hr. by simplify_eq.
    + split; [done|]. intros [r Hr]. rewrite app_cons in Hr. by simplify_eq.
Qed.

Lemma graphic_high (a c : ascii) :
  graphic a = true → (128 <=? N_of_ascii c)%N = true → Ascii.eqb a c = false.
Proof.
  unfold graphic. intros Ha Hc. apply Ascii.eqb_neq. intros ->.
  apply andb_prop in Ha as [_ Ha].
  apply N.leb_le in Ha, Hc. lia.
Qed.

Lemma graphic_low (a : ascii) :
  graphic a = true → (128 <=? N_of_ascii a)%N = false.
Proof.
  unfold graphic. intros Ha. apply andb_prop in Ha as [_ Ha].
  apply N.leb_le in Ha. apply N.leb_gt. lia.
Qed.

Lemma graphic_not_space (a : ascii) :
  graphic a = true →
  asciiSpace a = false
  ∧ (∀ b, space2 a b = false) ∧ (∀ b, space2 b a = false)
  ∧ (∀ b c, space3 a b c = false) ∧ (∀ b c, space3 b a c = false)
  ∧ (∀ b c, space3 c b a = false).
Proof.
  intros Ha.
  pose proof (λ c, graphic_high a c Ha) as Hhigh.
  pose proof (graphic_low a Ha) as Hlow.
  split.
  { clear Hhigh Hlow. by destruct a as [[] [] [] [] [] [] [] []]. }
  unfold space2, space3. repeat split; intros; rewrite ?Hlow, ?Hhigh by reflexivity;
    rewrite ?andb_false_r, ?andb_false_l, ?orb_false_l, ?orb_false_r; simpl;
    rewrite ?andb_false_r, ?andb_false_l, ?orb_false_l, ?orb_false_r; reflexivity.
Qed.

(** Trimming stops at a graphic byte, from either end. *)
Lemma trimHead_graphic (back : bool) (s : string) :
  headGraphic s = true → trimHead back s = s.
Proof.
  destruct s as [|a r1]; [done|]. simpl. intros Ha.
  destruct (graphic_not_space a Ha) as (-> & H2 & H2' & H3 & _ & H3').
  destruct r1 as [|b r2]; [done|].
  rewrite H2, H2'. destruct r2 as [|c r3]; [by destruct back|].
  rewrite H3, H3'. by destruct back.
Qed.

Lemma headGraphic_app (p r : string) :
  headGraphic p = true → headGraphic (p +:+ r) = true.
Proof. by destruct p. Qed.

(** Trimming from the back never eats into a suffix that starts with a
    graphic byte. *)
Lemma trimHead_back_keeps (q : string) :
  headGraphic q = true →
  ∀ n l, String.length l ≤ n → ∃ l', trimHead true (l +:+ q) = l' +:+ q.
Proof.
  intros Hq. destruct q as [|x q']; [done|]. simpl in Hq.
  destruct (graphic_not_space x Hq) as (Hx1 & Hx2 & _ & Hx3 & Hx3' & _).
  induction n as [|n IH]; intros l Hl.
  { destruct l; [|simpl in Hl; lia].
    exists "". by rewrite app_empty_l, trimHead_graphic. }
  destruct l as [|a l1].
  { exists "". by rewrite app_empty_l, trimHead_graphic. }
  rewrite app_cons. simpl in Hl. simpl trimHead.
  destruct (asciiSpace a) eqn:Ha.
  { apply IH. lia. }
  destruct l1 as [|b l2].
  { rewrite app_empty_l. rewrite Hx2.
    destruct q' as [|y q'']; [by exists (String a "")|].
    rewrite Hx3'. by exists (String a ""). }
  rewrite app_cons. simpl in Hl.
  destruct (space2 b a) eqn:Hab.
  { apply IH. lia. }
  destruct l2 as [|c l3].
  { rewrite app_empty_l. rewrite Hx3. by exists (String a (String b "")). }
  rewrite app_cons. simpl in Hl.
  destruct (space3 c b a) eqn:Habc.
  { apply IH. lia. }
  by exists (String a (String b (String c l3))).
Qed.

(** [TrimSpace] keeps a prefix that starts and ends with a graphic
    byte. *)
Lemma TrimSpace_keeps_prefix (p r : string) :
  headGraphic p = true → headGraphic (String.rev p) = true →
  ∃ r', TrimSpace (p +:+ r) = p +:+ r'.
Proof.
  intros Hp Hrp. unfold TrimSpace.
  rewrite (trimHead_graphic false (p +:+ r)) by (by apply headGraphic_app).
  rewrite rev_app.
  destruct (trimHead_back_keeps _ Hrp _ (String.rev r) (le_n _)) as [l' ->].
  exists (String.rev l'). by rewrite rev_app, rev_rev.
Qed.

(** A line that starts and ends with a graphic byte is the command
    itself, once the newline is trimmed. *)
Lemma TrimSpace_line (s : string) :
  headGraphic s = true → headGraphic (String.rev s) = true →
  TrimSpace (s +:+ String "010" "") = s.
Proof.
  intros Hs Hrs. unfold TrimSpace.
  rewrite (trimHead_graphic false (s +:+ _)) by (by apply headGraphic_app).
  rewrite rev_app. change (String.rev (String "010" "")) with (String "010" "").
  rewrite app_cons, app_empty_l. simpl trimHead.
  change (asciiSpace "010") with true. cbv iota.
  by rewrite trimHead_graphic, rev_rev.
Qed.

Lemma token_rev_head (s t : string) :
  token s → headGraphic (String.rev s +:+ t) = true.
Proof.
  intros [Hne Hall]. revert t.
  induction s as [|a s IH]; intros t; [done|].
  simpl in Hall. apply andb_prop in Hall as [Ha Hs].
  rewrite rev_cons, app_assoc', app_cons, app_empty_l.
  destruct s as [|b s]; [by rewrite app_empty_l|].
  by apply IH.
Qed.

Lemma cut_token (s t : string) :
  allGraphic s = true → cut " " (s +:+ String " " t) = Some (s, t).
Proof.
  induction s as [|a s IH]; intros Hs; [done|].
  simpl in Hs. apply andb_prop in Hs as [Ha Hs].
  rewrite app_cons. simpl. rewrite (IH Hs).
  by destruct a as [[] [] [] [] [] [] [] []].
Qed.

End StringFacts.

(** ** The monad *)

Lemma bind_run {A B} (c : M A) (k : A → M B) (w w' : World) (a : A) :
  c w = Some (a, w') → bind c k w = k a w'.
Proof. unfold bind. by intros ->. Qed.

Lemma bind_panic {A B} (c : M A) (k : A → M B) (w : World) :
  c w = None → bind c k w = None.
Proof. unfold bind. by intros ->. Qed.

(** ** Routing *)

Lemma outside_false (o : graphOptions) (t : Z) :
  ((t <? minTimeSeconds o) || (t >? maxTimeSeconds o))%Z = false ↔ inWindow o t.
Proof. unfold inWindow. rewrite orb_false_iff, Z.ltb_ge, Z.gtb_ltb, Z.ltb_ge. lia. Qed.

Lemma outside_true (o : graphOptions) (t : Z) :
  ((t <? minTimeSeconds o) || (t >? maxTimeSeconds o))%Z = true ↔ ¬ inWindow o t.
Proof. rewrite <- outside_false. by destruct (_ || _). Qed.

Lemma routed_ext gpw w pts pts' :
  (∀ m, pts m = pts' m) → routed gpw w pts → routed gpw w pts'.
Proof.
  intros Heq [H1 H2 H3]. split; intros.
  - rewrite <- Heq. eauto.
  - rewrite <- Heq. eauto.
  - eauto.
Qed.

Lemma routed_series gpw w pts m :
  routed gpw w pts →
  series gpw w m = if decide (pts m = []) then None else Some (pts m).
Proof.
  intros [H1 H2 _]. unfold series.
  destruct (metricFiles gpw !! m) as [h|] eqn:Hm.
  - destruct (H1 _ _ Hm) as (name & -> & Hne). by rewrite decide_False.
  - by rewrite decide_True by eauto.
Qed.

(** [addPoint] never panics on a writer being routed to; it appends the
    point to the series of its metric when the time is in the window, and
    does nothing otherwise. *)
Lemma addPoint_routed gpw w pts t m v :
  routed gpw w pts →
  ∃ gpw' w',
    addPoint gpw t m v w = Some (gpw', w')
    ∧ routed gpw' w'
        (λ m', pts m' ++ if decide (m = m' ∧ inWindow (options gpw) t)
                         then [Point t v] else [])
    ∧ tempdir gpw' = tempdir gpw ∧ options gpw' = options gpw
    ∧ sameOutside w w'
    ∧ (¬ inWindow (options gpw) t → gpw' = gpw ∧ w' = w).
Proof.
  intros Hr. unfold addPoint.
  destruct (_ || _)%Z eqn:Hout.
  { apply outside_true in Hout. exists gpw, w. split_and!; try done.
    eapply routed_ext; [|done]. intros m'. simpl.
    rewrite decide_False by tauto. by rewrite app_nil_r. }
  apply outside_false in Hout.
  unfold getDatafile.
  destruct (metricFiles gpw !! m) as [h|] eqn:Hm.
  - destruct (routed_some _ _ _ Hr _ _ Hm) as (name & Hh & Hne).
    eexists gpw, _. unfold bind, ret, writeln. simpl. rewrite Hh. simpl.
    split_and!; try done; try tauto. split.
    + intros m' h' Hm'. simpl.
      destruct (routed_some _ _ _ Hr _ _ Hm') as (name' & Hh' & Hne').
      destruct (decide (h = h')) as [<-|Hhh].
      * assert (m = m') as <- by (eapply routed_inj; eauto).
        rewrite decide_True by done. exists name.
        rewrite list_lookup_insert_eq by (by eapply lookup_lt_Some).
        split; [done|]. by intros [? ?]%app_eq_nil.
      * assert (m ≠ m') by (intros <-; congruence).
        rewrite decide_False by tauto. rewrite app_nil_r. exists name'.
        by rewrite list_lookup_insert_ne.
    + intros m' Hm'. simpl.
      assert (m ≠ m') by (intros <-; congruence).
      rewrite decide_False by tauto. rewrite app_nil_r.
      by eapply routed_none.
    + eapply routed_inj; eauto.
  - pose proof (routed_none _ _ _ Hr _ Hm) as Hnil.
    eexists _, _. unfold bind, ret, writeln, CreateTemp, random. simpl.
    rewrite lookup_app_r by done. rewrite Nat.sub_diag. simpl.
    split_and!; try done; try tauto. split.
    + intros m' h'. simpl. rewrite lookup_insert.
      case_decide as Hmm.
      * subst m'. intros [= <-]. rewrite decide_True by done.
        eexists. rewrite insert_app_r_alt by done. rewrite Nat.sub_diag.
        simpl. rewrite lookup_app_r by done. rewrite Nat.sub_diag. simpl.
        rewrite Hnil. split; [reflexivity|done].
      * intros Hm'. rewrite decide_False by tauto. rewrite app_nil_r.
        destruct (routed_some _ _ _ Hr _ _ Hm') as (name' & Hh' & Hne').
        exists name'. split; [|done].
        rewrite insert_app_r_alt by done. rewrite Nat.sub_diag. simpl.
        rewrite lookup_app_l by (by eapply lookup_lt_Some). done.
    + intros m'. simpl. rewrite lookup_insert.
      case_decide as Hmm; [done|]. intros Hm'.
      rewrite decide_False by tauto. rewrite app_nil_r.
      by eapply routed_none.
    + intros m1 m2 h'. simpl. rewrite !lookup_insert.
      repeat case_decide; subst; try done.
      * intros [= <-] Hm2.
        destruct (routed_some _ _ _ Hr _ _ Hm2) as (? & Hh' & _).
        apply lookup_lt_Some in Hh'. lia.
      * intros Hm1 [= <-].
        destruct (routed_some _ _ _ Hr _ _ Hm1) as (? & Hh' & _).
        apply lookup_lt_Some in Hh'. lia.
      * eapply routed_inj; eauto.
Qed.

Lemma sameOutside_refl w : sameOutside w w.
Proof. done. Qed.

Lemma sameOutside_trans w1 w2 w3 :
  sameOutside w1 w2 → sameOutside w2 w3 → sameOutside w1 w3.
Proof. unfold sameOutside. intros [-> ->] [-> ->]. done. Qed.

Lemma addReadings_routed (t : Z) (rs : list Reading) gpw w pts :
  routed gpw w pts →
  ∃ gpw' w',
    forEach (λ gpw reading, addPoint gpw t (MetricName reading) (Value reading))
            rs gpw w = Some (gpw', w')
    ∧ routed gpw' w' (λ m, pts m ++ pointsOfReadings (options gpw) t rs m)
    ∧ tempdir gpw' = tempdir gpw ∧ options gpw' = options gpw
    ∧ sameOutside w w'.
Proof.
  revert gpw w pts. induction rs as [|r rs IH]; intros gpw w pts Hr.
  { exists gpw, w. split_and!; try done.
    eapply routed_ext; [|done]. intros m. simpl. by rewrite app_nil_r. }
  destruct (addPoint_routed _ _ _ t (MetricName r) (Value r) Hr)
    as (gpw1 & w1 & Hrun & Hr1 & Htmp & Hopt & Hout & _).
  destruct (IH _ _ _ Hr1) as (gpw2 & w2 & Hrun2 & Hr2 & Htmp2 & Hopt2 & Hout2).
  exists gpw2, w2. simpl forEach. rewrite (bind_run _ _ _ _ _ Hrun).
  split_and!; try congruence; [|by eapply sameOutside_trans].
  eapply routed_ext; [|done]. intros m. simpl.
  rewrite Hopt. by rewrite <- app_assoc.
Qed.

Lemma addFlatDatum_routed (d : FlatDatum) gpw w pts :
  routed gpw w pts →
  ∃ gpw' w',
    addFlatDatum gpw d w = Some (gpw', w')
    ∧ routed gpw' w'
        (λ m, pts m ++ pointsOfReadings (options gpw) (ConvertedTimeUnix d) (Readings d) m)
    ∧ tempdir gpw' = tempdir gpw ∧ options gpw' = options gpw
    ∧ sameOutside w w'.
Proof. apply addReadings_routed. Qed.

Lemma addData_routed (data : list FlatDatum) gpw w pts :
  routed gpw w pts →
  ∃ gpw' w',
    forEach addFlatDatum data gpw w = Some (gpw', w')
    ∧ routed gpw' w' (λ m, pts m ++ pointsOf (options gpw) data m)
    ∧ tempdir gpw' = tempdir gpw ∧ options gpw' = options gpw
    ∧ sameOutside w w'.
Proof.
  revert gpw w pts. induction data as [|d data IH]; intros gpw w pts Hr.
  { exists gpw, w. split_and!; try done.
    eapply routed_ext; [|done]. intros m. simpl. by rewrite app_nil_r. }
  destruct (addFlatDatum_routed d _ _ _ Hr)
    as (gpw1 & w1 & Hrun & Hr1 & Htmp & Hopt & Hout).
  destruct (IH _ _ _ Hr1) as (gpw2 & w2 & Hrun2 & Hr2 & Htmp2 & Hopt2 & Hout2).
  exists gpw2, w2. simpl forEach. rewrite (bind_run _ _ _ _ _ Hrun).
  split_and!; try congruence; [|by eapply sameOutside_trans].
  eapply routed_ext; [|done]. intros m. simpl.
  rewrite Hopt. by rewrite <- app_assoc.
Qed.

(** A new writer has no file and no point. *)
Lemma newGnuPlotWriter_routed (o : graphOptions) (w : World) :
  ∃ gpw w',
    newGnuPlotWriter o w = Some (gpw, w')
    ∧ routed gpw w' (λ _, [])
    ∧ metricFiles gpw = ∅ ∧ options gpw = o
    ∧ files w' = files w ∧ sameOutside w w'.
Proof.
  eexists _, _. split; [reflexivity|]. simpl. split_and!; done.
Qed.

(** Routing never panics, and leaves every metric with the points of the
    data that the window admits, in the order of arrival. *)
Lemma route_routed (data : list FlatDatum) (o : graphOptions) (w : World) :
  ∃ gpw w',
    route data o w = Some (gpw, w')
    ∧ routed gpw w' (pointsOf o data)
    ∧ options gpw = o ∧ sameOutside w w'.
Proof.
  destruct (newGnuPlotWriter_routed o w) as (gpw0 & w0 & Hnew & Hr0 & _ & Hopt & _ & Hout).
  destruct (addData_routed data _ _ _ Hr0) as (gpw & w' & Hrun & Hr & _ & Hopt' & Hout').
  exists gpw, w'. unfold route. rewrite (bind_run _ _ _ _ _ Hnew).
  split_and!; [done| |congruence|by eapply sameOutside_trans].
  eapply routed_ext; [|done]. intros m. simpl. by rewrite Hopt.
Qed.

(** ** Compiling the script *)

Lemma plotLoop_run (gnuFile : nat) (entries : list (string * nat)) (w : World) (g : File) :
  files w !! gnuFile = Some g → fileClosed g = false →
  (∀ m h, (m, h) ∈ entries → h ≠ gnuFile ∧ is_Some (files w !! h)) →
  ∃ w',
    forEach (plotEntry gnuFile) entries tt w = Some (tt, w')
    ∧ files w' !! gnuFile
      = Some (mkFile (fileName g) (fileLines g ++ plotLines w entries) false)
    ∧ (∀ h f, h ≠ gnuFile → files w !! h = Some f →
         ∃ c, files w' !! h = Some (mkFile (fileName f) (fileLines f) c))
    ∧ stdout w' = stdout w ∧ execs w' = execs w ∧ entropy w' = entropy w.
Proof.
  revert w g. induction entries as [|[m h] entries IH]; intros w g Hg Hopen Hvalid.
  { exists w. simpl. rewrite app_nil_r. destruct g; simpl in *; subst.
    split_and!; try done.
    intros h f _ Hf. rewrite Hf. exists (fileClosed f).
    destruct f as [a b c]. reflexivity. }
  destruct (Hvalid m h) as [Hne [f Hf]]; [left|].
  destruct w as [fs so ex en]. simpl in *.
  set (fs1 := <[gnuFile := mkFile (fileName g) (fileLines g ++ [Text (plotLine (fileName f) m)]) false]> fs).
  set (fs2 := <[h := mkFile (fileName f) (fileLines f) true]> fs1).
  assert (gnuFile < length fs) as Hlt by (by eapply lookup_lt_Some).
  assert (h < length fs) as Hlth by (by eapply lookup_lt_Some).
  assert (fs1 !! h = Some f) as Hf1.
  { unfold fs1. by rewrite list_lookup_insert_ne. }
  assert (fs2 !! gnuFile = Some (mkFile (fileName g) (fileLines g ++ [Text (plotLine (fileName f) m)]) false)) as Hg2.
  { unfold fs2, fs1. rewrite list_lookup_insert_ne by done.
    by rewrite list_lookup_insert_eq. }
  destruct (IH (mkWorld fs2 so ex en) _ Hg2 eq_refl) as (w' & Hrun & Hscript & Hframe & Hso & Hex & Hen).
  { intros m' h' Hin. destruct (Hvalid m' h') as [? [f' Hf']]; [by right|].
    split; [done|]. simpl. unfold fs2, fs1.
    apply lookup_lt_is_Some. rewrite !length_insert. by eapply lookup_lt_Some. }
  assert (∀ h' f', h' ≠ gnuFile → fs !! h' = Some f' →
            ∃ c, fs2 !! h' = Some (mkFile (fileName f') (fileLines f') c)) as Hstep.
  { intros h' f' Hne' Hf'. unfold fs2. destruct (decide (h = h')) as [<-|Hhh].
    - rewrite list_lookup_insert_eq by (unfold fs1; by rewrite length_insert).
      exists true. congruence.
    - rewrite list_lookup_insert_ne by done. unfold fs1.
      rewrite list_lookup_insert_ne by done. exists (fileClosed f'). by destruct f'. }
  exists w'. simpl forEach. unfold plotEntry at 1.
  unfold bind at 1. unfold bind at 1. unfold Name at 1. simpl. rewrite Hf.
  unfold bind at 1. unfold writeln at 1. simpl. rewrite Hg, Hopen.
  unfold Close at 1. simpl. fold fs1. rewrite Hf1. fold fs2.
  split_and!; try done.
  - assert (plotLines (mkWorld fs2 so ex en) entries = plotLines (mkWorld fs so ex en) entries) as Hsame.
    { unfold plotLines. apply map_ext_in. intros [m' h'] Hin%list_elem_of_In. simpl.
      destruct (Hvalid m' h') as [Hne' [f' Hf']]; [by right|].
      unfold nameAt. simpl. destruct (Hstep _ _ Hne' Hf') as [c ->].
      by rewrite Hf'. }
    rewrite Hscript, Hsame. simpl. rewrite <- app_assoc. simpl.
    unfold nameAt. simpl. by rewrite Hf.
  - intros h' f' Hne' Hf'. destruct (Hstep _ _ Hne' Hf') as [c Hc].
    destruct (Hframe _ _ Hne' Hc) as [c' ->]. by exists c'.
Qed.

Lemma writeln_new fs name ls x so ex en :
  writeln (length fs) x (mkWorld (fs ++ [mkFile name ls false]) so ex en)
  = Some (tt, mkWorld (fs ++ [mkFile name (ls ++ [x]) false]) so ex en).
Proof.
  unfold writeln. simpl. rewrite lookup_app_r by done. rewrite Nat.sub_diag. simpl.
  rewrite insert_app_r_alt by done. by rewrite Nat.sub_diag.
Qed.

(** On a writer whose data files exist, [CompileAndClose] never panics: it
    returns the name of a new file that holds the preamble and one plot
    directive per entry of the map, in the order the runtime visits them;
    the lines of the other files stay as they are. *)
Lemma CompileAndClose_run `{Runtime} (gpw : gnuplotWriter) (w : World) :
  (∀ m h, metricFiles gpw !! m = Some h → is_Some (files w !! h)) →
  let entries := mapRange (S (entropy w)) (metricFiles gpw) in
  let filename := tempdir gpw +:+ "/" +:+ "main" +:+ decimal (entropy w) in
  ∃ w',
    CompileAndClose gpw w = Some (filename, w')
    ∧ files w' !! length (files w)
      = Some (mkFile filename
                (preamble (size (metricFiles gpw)) ++ plotLines w entries) true)
    ∧ (∀ h f, files w !! h = Some f →
         ∃ c, files w' !! h = Some (mkFile (fileName f) (fileLines f) c))
    ∧ stdout w' = stdout w ++ [Println ["Output file: `plot.png`"]]
    ∧ execs w' = execs w.
Proof.
  intros Hvalid entries filename. destruct w as [fs so ex en]. simpl in *.
  unfold CompileAndClose.
  unfold bind at 1. unfold CreateTemp at 1. unfold bind at 1. simpl.
  fold filename.
  rewrite (bind_run _ _ _ _ _ (writeln_new _ _ _ _ _ _ _)).
  unfold bind at 1. unfold nolintPrintln, output, say. simpl.
  do 7 rewrite (bind_run _ _ _ _ _ (writeln_new _ _ _ _ _ _ _)).
  unfold bind at 1. simpl. fold entries.
  set (g := mkFile filename (preamble (size (metricFiles gpw))) false).
  set (w1 := mkWorld (fs ++ [g]) (so ++ [Println ["Output file: `plot.png`"]]) ex (S (S en))).
  assert (files w1 !! length fs = Some g) as Hg.
  { simpl. rewrite lookup_app_r by done. by rewrite Nat.sub_diag. }
  destruct (plotLoop_run (length fs) entries w1 g Hg eq_refl)
    as (w2 & Hrun & Hscript & Hframe & Hso & Hex & Hen).
  { intros m h Hin. unfold entries in Hin. rewrite mapRange_perm in Hin.
    apply elem_of_map_to_list in Hin. destruct (Hvalid _ _ Hin) as [f Hf].
    pose proof (lookup_lt_Some _ _ _ Hf). split; [lia|].
    simpl. rewrite lookup_app_l by done. eauto. }
  change (λ w, Some (length fs, ?w')) with (ret (length fs)).
  exists (mkWorld (<[length fs := mkFile filename (preamble (size (metricFiles gpw)) ++ plotLines w1 entries) true]> (files w2))
                  (stdout w2) (execs w2) (entropy w2)).
  assert (plotLines w1 entries = plotLines (mkWorld fs so ex en) entries) as Hsame.
  { unfold plotLines. apply map_ext_in. intros [m h] Hin%list_elem_of_In. simpl.
    unfold entries in Hin. rewrite mapRange_perm in Hin.
    apply elem_of_map_to_list in Hin. destruct (Hvalid _ _ Hin) as [f Hf].
    unfold nameAt. simpl. rewrite lookup_app_l by (by eapply lookup_lt_Some). done. }
  rewrite (bind_run _ _ _ _ _ Hrun).
  unfold bind at 1. unfold Name at 1. rewrite Hscript. simpl.
  unfold bind at 1. unfold Close at 1. rewrite Hscript. simpl.
  split_and!; try done.
  - rewrite list_lookup_insert_eq by (by eapply lookup_lt_Some). by rewrite Hsame.
  - intros h f Hf. pose proof (lookup_lt_Some _ _ _ Hf).
    rewrite list_lookup_insert_ne by lia.
    apply (Hframe h f); [lia|]. simpl. by rewrite lookup_app_l.
Qed.

(** ** Rendering *)

Lemma routed_valid gpw w pts :
  routed gpw w pts → ∀ m h, metricFiles gpw !! m = Some h → is_Some (files w !! h).
Proof. intros Hr m h Hm. destruct (routed_some _ _ _ Hr _ _ Hm) as (? & -> & _). eauto. Qed.

(** [Render] never panics after routing, and runs [gnuplot] once. *)
Lemma Render_run `{Runtime} gpw w pts :
  routed gpw w pts →
  ∃ w', Render gpw w = Some (tt, w')
        ∧ execs w' = execs w ++ [tempdir gpw +:+ "/" +:+ "main" +:+ decimal (entropy w)].
Proof.
  intros Hr.
  destruct (CompileAndClose_run gpw w (routed_valid _ _ _ Hr))
    as (w1 & Hrun & _ & _ & _ & Hex).
  unfold Render. rewrite (bind_run _ _ _ _ _ Hrun).
  unfold bind at 1. unfold runGnuplot at 1.
  destruct (gnuplot (files w1) _) as [[err out]|].
  - eexists. split; [reflexivity|]. simpl. by rewrite Hex.
  - eexists. split; [reflexivity|]. simpl. by rewrite Hex.
Qed.

Section Loop.
Context `{Runtime}.
Variable data : list FlatDatum.

(** The render block never panics; it runs [gnuplot] once when [render]
    is set and does nothing otherwise. *)
Lemma renderBlock_run (st : mainState) (w : World) :
  ∃ w', renderBlock data st w = Some (tt, w')
        ∧ (render st = true → length (execs w') = S (length (execs w)))
        ∧ (render st = false → w' = w).
Proof.
  unfold renderBlock. destruct (render st).
  - destruct (route_routed data (graphOpts st) w) as (gpw & w1 & Hroute & Hr & _ & _ & Hex).
    destruct (Render_run gpw w1 _ Hr) as (w2 & Hrender & Hex2).
    exists w2. rewrite (bind_run _ _ _ _ _ Hroute). split_and!; [done| |done].
    intros _. rewrite Hex2, length_app, Hex. simpl. lia.
  - exists w. by split_and!.
Qed.

Lemma iteration_run (st : mainState) (s : string) (err : option error) (w w1 : World) :
  renderBlock data st w = Some (tt, w1) →
  iteration data st (s, err) w
  = command (graphOpts st) (GoStrings.TrimSpace s) err (say (Print "$ ") w1).
Proof. intros Hr. unfold iteration. by rewrite (bind_run _ _ _ _ _ Hr). Qed.


End Loop.

(** ** Metrics in the order they are first seen *)

Lemma elem_of_firstOccurrences (x : string) (l : list string) :
  x ∈ firstOccurrences l ↔ x ∈ l.
Proof.
  induction l as [|y l IH]; simpl; [done|].
  rewrite !elem_of_cons, list_elem_of_filter, IH.
  destruct (decide (x = y)); intuition congruence.
Qed.

Lemma NoDup_firstOccurrences (l : list string) : NoDup (firstOccurrences l).
Proof.
  induction l as [|y l IH]; simpl; [constructor|].
  constructor; [|by apply NoDup_filter].
  rewrite list_elem_of_filter. tauto.
Qed.

Lemma elem_of_namesOfReadings o t rs m :
  m ∈ namesOfReadings o t rs ↔ pointsOfReadings o t rs m ≠ [].
Proof.
  induction rs as [|r rs IH]; simpl; [by rewrite elem_of_nil|].
  rewrite elem_of_app, IH.
  destruct (decide (inWindow o t)) as [Hin|Hout].
  - rewrite list_elem_of_singleton.
    destruct (decide (MetricName r = m)) as [->|Hne].
    + rewrite decide_True by done. simpl. intuition congruence.
    + rewrite decide_False by tauto. simpl. intuition congruence.
  - rewrite decide_False by tauto. rewrite elem_of_nil. simpl. tauto.
Qed.

Lemma elem_of_routedNames o data m :
  m ∈ routedNames o data ↔ pointsOf o data m ≠ [].
Proof.
  induction data as [|d data IH]; simpl; [by rewrite elem_of_nil|].
  rewrite elem_of_app, IH, elem_of_namesOfReadings.
  destruct (pointsOfReadings _ _ _ _), (pointsOf _ _ _); simpl; intuition congruence.
Qed.

(** After routing, the metrics of the map are the metrics first seen,
    whatever the order the runtime visits them in. *)
Lemma routed_entries `{Runtime} gpw w o data (seed : nat) :
  routed gpw w (pointsOf o data) →
  (mapRange seed (metricFiles gpw)).*1 ≡ₚ firstSeen o data
  ∧ size (metricFiles gpw) = length (firstSeen o data).
Proof.
  intros Hr.
  assert ((map_to_list (metricFiles gpw)).*1 ≡ₚ firstSeen o data) as Hperm.
  { apply NoDup_Permutation.
    - apply NoDup_fst_map_to_list.
    - apply NoDup_firstOccurrences.
    - intros m. unfold firstSeen.
      rewrite elem_of_firstOccurrences, elem_of_routedNames, list_elem_of_fmap.
      split.
      + intros [[m' h] [-> Hin%elem_of_map_to_list]]. simpl.
        by destruct (routed_some _ _ _ Hr _ _ Hin) as (_ & _ & ?).
      + intros Hne. destruct (metricFiles gpw !! m) as [h|] eqn:Hm.
        * exists (m, h). split; [done|]. by apply elem_of_map_to_list.
        * by destruct Hne; eapply routed_none. }
  split.
  - by rewrite mapRange_perm.
  - by rewrite <- Hperm, length_fmap, length_map_to_list.
Qed.

(** * The claims *)

(** ** The cases of the switch *)

Section Switch.
Context `{Runtime}.
Variable data : list FlatDatum.
Import GoStrings.

(** The default case. *)
Lemma command_unknown (o : graphOptions) (cmd : string) (err : option error) (w : World) :
  isEOF err = false → cmd ≠ "quit" → cmd ≠ "h" → cmd ≠ "help" →
  HasPrefix cmd "range " = false → HasPrefix cmd "reset range" = false →
  cmd ≠ "" →
  command o cmd err w
  = Some (Continue {| render := false; graphOpts := o |},
          say (Println [unknownCommand]) w).
Proof.
  intros Herr Hquit Hh Hhelp Hrange Hreset Hempty. unfold command.
  rewrite Herr, Hrange, Hreset.
  apply String.eqb_neq in Hquit, Hh, Hhelp. rewrite Hquit, Hh, Hhelp. simpl.
  destruct cmd; [done|]. reflexivity.
Qed.

(** The case of the prefix [reset range]. *)
Lemma command_reset (o : graphOptions) (cmd : string) (err : option error) (w : World) :
  isEOF err = false → HasPrefix cmd "reset range" = true →
  command o cmd err w
  = Some (Continue {| render := true; graphOpts := defaultGraphOptions |}, w).
Proof.
  intros Herr Hreset. unfold command. rewrite Herr, Hreset.
  apply prefix_app in Hreset as [r ->].
  reflexivity.
Qed.

(** The pieces of a [range] line with two bounds, the first one free of
    spaces. *)
Lemma SplitN_range (start end_ : string) :
  allGraphic start = true →
  SplitN ("range " +:+ start +:+ " " +:+ end_) " " 3 = ["range"; start; end_].
Proof.
  intros Hs.
  change (SplitN ("range " +:+ start +:+ " " +:+ end_) " " 3)
    with ("range" :: match cut " " (start +:+ String " " end_) with
                     | Some (before, after) => before :: [after]
                     | None => [start +:+ String " " end_]
                     end).
  by rewrite cut_token.
Qed.

(** The case of the prefix [range ], on such a line. *)
Lemma command_range (o : graphOptions) (start end_ : string)
    (err : option error) (w : World) :
  isEOF err = false → allGraphic start = true →
  command o ("range " +:+ start +:+ " " +:+ end_) err w = rangeStart o start end_ w.
Proof.
  intros Herr Hs. unfold command. rewrite Herr.
  assert (HasPrefix ("range " +:+ start +:+ " " +:+ end_) "range " = true) as Hp.
  { apply prefix_app. by eexists. }
  rewrite Hp. unfold rangeCommand. rewrite (SplitN_range _ _ Hs). reflexivity.
Qed.

(** A [range] line with two tokens reaches the switch as typed. *)
Lemma TrimSpace_range (start end_ : string) :
  token end_ →
  TrimSpace ("range " +:+ start +:+ " " +:+ end_ +:+ newline)
  = "range " +:+ start +:+ " " +:+ end_.
Proof.
  intros He.
  rewrite <- (TrimSpace_line ("range " +:+ start +:+ " " +:+ end_)).
  - by rewrite !app_assoc'.
  - reflexivity.
  - rewrite <- (app_assoc' "range " start), <- app_assoc'.
    rewrite rev_app. by apply token_rev_head.
Qed.

(** An iteration that reads such a line. *)
Lemma iteration_range (st : mainState) (start end_ : string) (w w1 : World) :
  renderBlock data st w = Some (tt, w1) →
  allGraphic start = true → token end_ →
  iteration data st (line ("range " +:+ start +:+ " " +:+ end_)) w
  = rangeStart (graphOpts st) start end_ (say (Print "$ ") w1).
Proof.
  intros Hr Hs He. unfold line. rewrite (iteration_run _ _ _ _ _ _ Hr).
  rewrite !app_assoc', (TrimSpace_range _ _ He).
  by apply command_range.
Qed.

(** A [range] line whose start bound does not parse: the error is
    printed, the window is as before, and [render] is still set. *)
Lemma range_malformed_start
    (st : mainState) (start end_ : string) (e : error) (w w1 : World) :
  renderBlock data st w = Some (tt, w1) →
  allGraphic start = true → token end_ →
  start ≠ "start" → timeParse start = Fail e →
  iteration data st (line ("range " +:+ start +:+ " " +:+ end_)) w
  = Some (Continue {| render := true; graphOpts := graphOpts st |},
          say (Printf startErrorFormat [AStr start; AErr e]) (say (Print "$ ") w1)).
Proof.
  intros Hr Hs He Hkey%String.eqb_neq Hparse.
  rewrite (iteration_range _ _ _ _ _ Hr Hs He).
  unfold rangeStart. by rewrite Hkey, Hparse.
Qed.

(** A [range] line whose start bound parses, to [t], and whose end bound
    does not: the error is printed, [minTimeSeconds] is [t] all the same,
    and [render] is still set. *)
Lemma range_malformed_end
    (st : mainState) (start end_ : string) (t : Z) (e : error) (w w1 : World) :
  renderBlock data st w = Some (tt, w1) →
  allGraphic start = true → token end_ →
  start ≠ "start" → timeParse start = Ok t →
  end_ ≠ "end" → timeParse end_ = Fail e →
  iteration data st (line ("range " +:+ start +:+ " " +:+ end_)) w
  = Some (Continue {| render := true;
                      graphOpts := {| minTimeSeconds := t;
                                      maxTimeSeconds := maxTimeSeconds (graphOpts st) |} |},
          say (Printf endErrorFormat [AStr end_; AErr e]) (say (Print "$ ") w1)).
Proof.
  intros Hr Hs He Hkey%String.eqb_neq Hstart Hkey'%String.eqb_neq Hend.
  rewrite (iteration_range _ _ _ _ _ Hr Hs He).
  unfold rangeStart, rangeEnd. by rewrite Hkey, Hstart, Hkey', Hend.
Qed.

(** The same with the keyword [start]: [minTimeSeconds] is 0 all the
    same. *)
Lemma range_keyword_malformed_end
    (st : mainState) (end_ : string) (e : error) (w w1 : World) :
  renderBlock data st w = Some (tt, w1) →
  token end_ → end_ ≠ "end" → timeParse end_ = Fail e →
  iteration data st (line ("range " +:+ "start" +:+ " " +:+ end_)) w
  = Some (Continue {| render := true;
                      graphOpts := {| minTimeSeconds := 0;
                                      maxTimeSeconds := maxTimeSeconds (graphOpts st) |} |},
          say (Printf endErrorFormat [AStr end_; AErr e]) (say (Print "$ ") w1)).
Proof.
  intros Hr He Hkey%String.eqb_neq Hend.
  rewrite (iteration_range st "start" end_ w w1 Hr eq_refl He).
  unfold rangeStart, rangeEnd. simpl. by rewrite Hkey, Hend.
Qed.

(** A line with the prefix [reset range] reaches the case of that prefix,
    whatever follows the prefix. *)
Lemma iteration_reset (st : mainState) (s : string) (err : option error) (w w1 : World) :
  renderBlock data st w = Some (tt, w1) →
  HasPrefix s "reset range" = true → isEOF err = false →
  iteration data st (s, err) w
  = Some (Continue {| render := true; graphOpts := defaultGraphOptions |},
          say (Print "$ ") w1).
Proof.
  intros Hr Hs Herr. rewrite (iteration_run _ _ _ _ _ _ Hr).
  apply command_reset; [done|].
  apply prefix_app in Hs as [r ->].
  destruct (TrimSpace_keeps_prefix "reset range" r eq_refl eq_refl) as [r' ->].
  apply prefix_app. by eexists.
Qed.

End Switch.

(** ** C1 *)

(** C1 fails on the code: when the start bound parses and the end bound
    does not, [minTimeSeconds] has been assigned by the time the end bound
    is parsed, and [continue] leaves it so. Here the window goes from
    [0, MaxInt64] to [1727200800, MaxInt64]; and with the keyword [start],
    from [100, 150] to [0, 150]. *)
Theorem range_bad_end_moves_start (data : list FlatDatum) (w : World) :
  (∃ w1,
     renderBlock (H:=goRuntime) data initialState w = Some (tt, w1)
     ∧ iteration (H:=goRuntime) data initialState
         (line "range 2024-09-24T18:00:00 tomorrow") w
       = Some (Continue {| render := true;
                           graphOpts := {| minTimeSeconds := 1727200800;
                                           maxTimeSeconds := MaxInt64 |} |},
               say (Printf endErrorFormat [AStr "tomorrow"; AErr (Err "parsing time")])
                   (say (Print "$ ") w1)))
  ∧ iteration (H:=goRuntime) data
      {| render := false;
         graphOpts := {| minTimeSeconds := 100; maxTimeSeconds := 150 |} |}
      (line "range start tomorrow") w
    = Some (Continue {| render := true;
                        graphOpts := {| minTimeSeconds := 0; maxTimeSeconds := 150 |} |},
            say (Printf endErrorFormat [AStr "tomorrow"; AErr (Err "parsing time")])
                (say (Print "$ ") w)).
Proof.
  assert (token "tomorrow") as Htok by done.
  split.
  - destruct (renderBlock_run (H:=goRuntime) data initialState w) as (w1 & Hr & _).
    exists w1. split; [done|].
    change "range 2024-09-24T18:00:00 tomorrow"
      with ("range " +:+ "2024-09-24T18:00:00" +:+ " " +:+ "tomorrow").
    by apply (range_malformed_end (H:=goRuntime) data initialState
                "2024-09-24T18:00:00" "tomorrow" 1727200800 (Err "parsing time") w w1).
  - change "range start tomorrow" with ("range " +:+ "start" +:+ " " +:+ "tomorrow").
    by apply (range_keyword_malformed_end (H:=goRuntime) data).
Qed.

(** ** C2 *)

(** C2 fails on the code: [render] is [true] when the switch is entered,
    and the [continue] of a parse failure goes back to the top of the loop
    without clearing it, so the next iteration builds a new writer and
    runs [gnuplot] again before it reads the next line. *)
Theorem range_bad_start_renders (data : list FlatDatum) (st : mainState) (w : World) :
  ∃ w1,
    renderBlock (H:=goRuntime) data st w = Some (tt, w1)
    ∧ iteration (H:=goRuntime) data st (line "range yesterday today") w
      = Some (Continue {| render := true; graphOpts := graphOpts st |},
              say (Printf startErrorFormat [AStr "yesterday"; AErr (Err "parsing time")])
                  (say (Print "$ ") w1))
    ∧ ∀ w2, ∃ w3,
        renderBlock (H:=goRuntime) data {| render := true; graphOpts := graphOpts st |} w2
        = Some (tt, w3)
        ∧ length (execs w3) = S (length (execs w2)).
Proof.
  destruct (renderBlock_run (H:=goRuntime) data st w) as (w1 & Hr & _).
  exists w1. split_and!; [done| |].
  - change "range yesterday today" with ("range " +:+ "yesterday" +:+ " " +:+ "today").
    assert (token "today") as Htok by done.
    by apply (range_malformed_start (H:=goRuntime) data st
                "yesterday" "today" (Err "parsing time") w w1).
  - intros w2.
    destruct (renderBlock_run (H:=goRuntime) data {| render := true; graphOpts := graphOpts st |} w2)
      as (w3 & Hr3 & Hex & _).
    exists w3. split; [done|]. by apply Hex.
Qed.

(** ** C3 *)

(** C3 fails on the code: the line [range 100] has one bound only, the
    index [pieces[2]] is out of range and the program panics, whatever
    the state of the loop and whatever input follows. *)
Theorem range_one_bound_panics `{Runtime}
    (data : list FlatDatum) (st : mainState) (w : World)
    (rest : list (string * option error)) :
  GoStrings.SplitN "range 100" " " 3 = ["range"; "100"]
  ∧ iteration data st (line "range 100") w = None
  ∧ loop data (line "range 100" :: rest) st w = None.
Proof.
  assert (iteration data st (line "range 100") w = None) as Hiter.
  { destruct (renderBlock_run data st w) as (w1 & Hr & _).
    unfold line. by rewrite (iteration_run _ _ _ _ _ _ Hr). }
  split_and!; [done..|].
  simpl. by rewrite (bind_panic _ _ _ Hiter).
Qed.

(** ** C4 *)

(** C4. On a writer being routed to, [addPoint] never panics, and it
    appends the pair [(t, v)] to the series of metric [m] if and only if
    [min <= t <= max], both ends included. A point outside the window
    changes nothing, the series of the other metrics are left as they
    are, and no condition is put on the value [v]. *)
Theorem addPoint_inclusive_window
    (gpw : gnuplotWriter) (w : World) (pts : string → list Line)
    (t : Z) (m : string) (v : float32) :
  routed gpw w pts →
  ∃ gpw' w',
    addPoint gpw t m v w = Some (gpw', w')
    ∧ (default [] (series gpw' w' m) = default [] (series gpw w m) ++ [Point t v]
       ↔ inWindow (options gpw) t)
    ∧ (inWindow (options gpw) t → series gpw' w' m = Some (pts m ++ [Point t v]))
    ∧ (¬ inWindow (options gpw) t → gpw' = gpw ∧ w' = w)
    ∧ (∀ m', m' ≠ m → series gpw' w' m' = series gpw w m').
Proof.
  intros Hr.
  destruct (addPoint_routed gpw w pts t m v Hr)
    as (gpw' & w' & Hrun & Hr' & _ & _ & _ & Hout).
  exists gpw', w'.
  pose proof (λ m', routed_series _ _ _ m' Hr) as Hbefore.
  pose proof (λ m', routed_series _ _ _ m' Hr') as Hafter. simpl in Hafter.
  assert (inWindow (options gpw) t → series gpw' w' m = Some (pts m ++ [Point t v])) as Hin.
  { intros Hwin. rewrite Hafter.
    rewrite !(decide_True (P := m = m ∧ _)) by done.
    rewrite decide_False; [done|]. by intros [? ?]%app_eq_nil. }
  split_and!; try done.
  - split.
    + intros Heq. destruct (decide (inWindow (options gpw) t)) as [|Hnot]; [done|].
      destruct (Hout Hnot) as [-> ->].
      apply (f_equal length) in Heq. rewrite length_app in Heq. simpl in Heq. lia.
    + intros Hwin. rewrite (Hin Hwin), Hbefore. simpl. by case_decide as Hp; [rewrite Hp|].
  - intros m' Hne. rewrite Hafter, Hbefore.
    rewrite (decide_False (P := m = m' ∧ _)) by (intros [? _]; congruence).
    by rewrite app_nil_r.
Qed.

Lemma routed_withCpu : routed writerWithCpu worldWithCpu pointsWithCpu.
Proof.
  split; simpl.
  - intros m h [<- <-]%lookup_singleton_Some. by eexists.
  - intros m Hm%lookup_singleton_None. unfold pointsWithCpu. by rewrite decide_False.
  - intros m1 m2 h [<- _]%lookup_singleton_Some [<- _]%lookup_singleton_Some. done.
Defined.

Lemma addPoint_inclusive_window_witness :
  ∃ gpw' w',
    addPoint writerWithCpu 150 "cpu" 1073741824%Z worldWithCpu = Some (gpw', w')
    ∧ (default [] (series gpw' w' "cpu")
       = default [] (series writerWithCpu worldWithCpu "cpu") ++ [Point 150 1073741824%Z]
       ↔ inWindow (options writerWithCpu) 150)
    ∧ (inWindow (options writerWithCpu) 150 →
       series gpw' w' "cpu" = Some (pointsWithCpu "cpu" ++ [Point 150 1073741824%Z]))
    ∧ (¬ inWindow (options writerWithCpu) 150 → gpw' = writerWithCpu ∧ w' = worldWithCpu)
    ∧ (∀ m', m' ≠ "cpu" → series gpw' w' m' = series writerWithCpu worldWithCpu m').
Proof.
  apply (addPoint_inclusive_window writerWithCpu worldWithCpu pointsWithCpu).
  exact routed_withCpu.
Defined.

(** The scenario of the specification: with the window [100, 150], [cpu]
    holds the point at 100 only and [mem] the point at 150. *)
Example scenario_series :
  pointsOf {| minTimeSeconds := 100; maxTimeSeconds := 150 |} scenario "cpu"
  = [Point 100 1065353216%Z]
  ∧ pointsOf {| minTimeSeconds := 100; maxTimeSeconds := 150 |} scenario "mem"
    = [Point 150 1084227584%Z].
Proof. split; reflexivity. Qed.

(** ** C5 *)

(** C5 fails as stated: with the decoded data of the scenario, [cpu] is
    seen before [mem], and a runtime that visits the map in the opposite
    order puts the plot directive of [mem] first. *)
Lemma plot_order_differs_from_first_seen :
  ∃ gpw w1 filename w2 script,
    route scenario defaultGraphOptions emptyWorld = Some (gpw, w1)
    ∧ CompileAndClose (H:=goRuntimeRev) gpw w1 = Some (filename, w2)
    ∧ files w2 !! length (files w1) = Some script
    ∧ firstSeen defaultGraphOptions scenario = ["cpu"; "mem"]
    ∧ plotDirectives script = plotsFor gpw w1 ["mem"; "cpu"]
    ∧ plotDirectives script ≠ plotsFor gpw w1 (firstSeen defaultGraphOptions scenario).
Proof.
  eexists _, _, _, _, _.
  split; [vm_compute; reflexivity|].
  split; [vm_compute; reflexivity|].
  split; [vm_compute; reflexivity|].
  split; [vm_compute; reflexivity|].
  split; [vm_compute; reflexivity|].
  vm_compute. discriminate.
Qed.

(** C5, amended. The script has the layout of a single column with one
    row per metric first seen, and one plot directive per such metric:
    the directives follow the order in which the runtime visits the map,
    which is a permutation of the order in which the metrics were first
    seen. *)
Theorem plots_permute_first_seen `{Runtime} (data : list FlatDatum) (o : graphOptions) (w : World) :
  ∃ gpw w1 filename w2 script order,
    route data o w = Some (gpw, w1)
    ∧ CompileAndClose gpw w1 = Some (filename, w2)
    ∧ files w2 !! length (files w1) = Some script
    ∧ take 8 (fileLines script) = preamble (length (firstSeen o data))
    ∧ plotDirectives script = plotsFor gpw w1 order
    ∧ order ≡ₚ firstSeen o data.
Proof.
  destruct (route_routed data o w) as (gpw & w1 & Hroute & Hr & _ & _).
  destruct (CompileAndClose_run gpw w1 (routed_valid _ _ _ Hr))
    as (w2 & Hrun & Hscript & _).
  destruct (routed_entries gpw w1 o data (S (entropy w1)) Hr) as [Hperm Hsize].
  eexists gpw, w1, _, w2, _, (mapRange (S (entropy w1)) (metricFiles gpw)).*1.
  split_and!; try done.
  - simpl. by rewrite Hsize.
  - unfold plotDirectives, plotsFor, plotLines. simpl.
    rewrite <- list_fmap_compose. apply map_ext_in.
    intros [m h] Hin%list_elem_of_In. simpl.
    rewrite mapRange_perm in Hin. apply elem_of_map_to_list in Hin.
    by rewrite Hin.
Qed.

(** ** C6 *)

(** C6. A line that, once trimmed, is not empty and matches none of the
    commands ([quit], [h], [help], the prefixes [range ] and
    [reset range]) prints the unknown-command message, leaves the window
    as it is and clears [render], so that the next iteration does not
    render. *)
Theorem unknown_command_keeps_window `{Runtime} (data : list FlatDatum)
    (st : mainState) (s : string) (err : option error) (w : World) :
  let cmd := GoStrings.TrimSpace s in
  isEOF err = false → cmd ≠ "" →
  cmd ≠ "quit" → cmd ≠ "h" → cmd ≠ "help" →
  GoStrings.HasPrefix cmd "range " = false → GoStrings.HasPrefix cmd "reset range" = false →
  ∃ w1,
    renderBlock data st w = Some (tt, w1)
    ∧ iteration data st (s, err) w
      = Some (Continue {| render := false; graphOpts := graphOpts st |},
              say (Println [unknownCommand]) (say (Print "$ ") w1))
    ∧ ∀ w2, renderBlock data {| render := false; graphOpts := graphOpts st |} w2
            = Some (tt, w2).
Proof.
  intros cmd Herr Hempty Hquit Hh Hhelp Hrange Hreset.
  destruct (renderBlock_run data st w) as (w1 & Hr & _).
  exists w1. split_and!; [done| |done].
  rewrite (iteration_run _ _ _ _ _ _ Hr).
  by apply command_unknown.
Qed.

(** [zoom] is not a command. *)
Lemma unknown_command_keeps_window_witness :
  ∃ w1,
    renderBlock (H:=goRuntime) scenario initialState emptyWorld = Some (tt, w1)
    ∧ iteration (H:=goRuntime) scenario initialState (line "zoom") emptyWorld
      = Some (Continue {| render := false; graphOpts := graphOpts initialState |},
              say (Println [unknownCommand]) (say (Print "$ ") w1))
    ∧ ∀ w2, renderBlock (H:=goRuntime) scenario
              {| render := false; graphOpts := graphOpts initialState |} w2
            = Some (tt, w2).
Proof.
  apply (unknown_command_keeps_window (H:=goRuntime) scenario initialState
           ("zoom" +:+ newline) None emptyWorld).
  - reflexivity.
  - vm_compute. discriminate.
  - vm_compute. discriminate.
  - vm_compute. discriminate.
  - vm_compute. discriminate.
  - vm_compute. reflexivity.
  - vm_compute. reflexivity.
Defined.

(** ** C7 *)



(** ** C8 *)

(** C8, amended. The keyword bounds are the default open bounds. For
    every well-formed bound [X] (a token that parses, to the Unix time
    [x]): [range start X] sets the window to [0, x] and triggers a render,
    exactly as [range zero X] does for a start bound [zero] that denotes
    the Unix time 0 (a timestamp such as [1970-01-01T00:00:00], not the
    text [0]); [range X end] sets the window to [x, MaxInt64]. 0 and
    [MaxInt64] are the bounds of [defaultGraphOptions]. *)
Theorem range_keywords_are_default_bounds `{Runtime} (data : list FlatDatum)
    (st : mainState) (X zero : string) (x : Z) (w : World) :
  token X → X ≠ "start" → X ≠ "end" → timeParse X = Ok x →
  token zero → timeParse zero = Ok 0%Z →
  ∃ w1,
    renderBlock data st w = Some (tt, w1)
    ∧ iteration data st (line ("range start " +:+ X)) w
      = Some (Continue {| render := true;
                          graphOpts := {| minTimeSeconds := 0; maxTimeSeconds := x |} |},
              say (Print "$ ") w1)
    ∧ iteration data st (line ("range " +:+ zero +:+ " " +:+ X)) w
      = iteration data st (line ("range start " +:+ X)) w
    ∧ iteration data st (line ("range " +:+ X +:+ " end")) w
      = Some (Continue {| render := true;
                          graphOpts := {| minTimeSeconds := x;
                                          maxTimeSeconds := MaxInt64 |} |},
              say (Print "$ ") w1)
    ∧ minTimeSeconds defaultGraphOptions = 0%Z
    ∧ maxTimeSeconds defaultGraphOptions = MaxInt64.
Proof.
  intros HX Hstart Hend Hx Hzero Hz.
  destruct (renderBlock_run data st w) as (w1 & Hr & _).
  apply String.eqb_neq in Hstart, Hend.
  assert (iteration data st (line ("range start " +:+ X)) w
          = Some (Continue {| render := true;
                              graphOpts := {| minTimeSeconds := 0; maxTimeSeconds := x |} |},
                  say (Print "$ ") w1)) as Hkeyword.
  { change ("range start " +:+ X) with ("range " +:+ "start" +:+ " " +:+ X).
    rewrite (iteration_range data st "start" X w w1 Hr eq_refl HX).
    unfold rangeStart, rangeEnd. simpl. by rewrite Hend, Hx. }
  exists w1. split_and!; try done.
  - rewrite Hkeyword.
    rewrite (iteration_range data _ _ _ _ _ Hr (proj2 Hzero) HX).
    unfold rangeStart, rangeEnd. rewrite Hz, Hend, Hx.
    by destruct (String.eqb zero "start").
  - assert (token "end") as Htok by done.
    change ("range " +:+ X +:+ " end") with ("range " +:+ X +:+ " " +:+ "end").
    rewrite (iteration_range data _ _ _ _ _ Hr (proj2 HX) Htok).
    unfold rangeStart, rangeEnd. by rewrite Hstart, Hx.
Qed.

(** The help text's own examples: [range start 2024-09-24T18:30:00] and
    [range 2024-09-24T18:00:00 end], with [1970-01-01T00:00:00] for the
    Unix time 0. *)
Lemma range_keywords_are_default_bounds_witness :
  ∃ w1,
    renderBlock (H:=goRuntime) scenario initialState emptyWorld = Some (tt, w1)
    ∧ iteration (H:=goRuntime) scenario initialState
        (line ("range start " +:+ "2024-09-24T18:30:00")) emptyWorld
      = Some (Continue {| render := true;
                          graphOpts := {| minTimeSeconds := 0;
                                          maxTimeSeconds := 1727202600 |} |},
              say (Print "$ ") w1)
    ∧ iteration (H:=goRuntime) scenario initialState
        (line ("range " +:+ "1970-01-01T00:00:00" +:+ " " +:+ "2024-09-24T18:30:00"))
        emptyWorld
      = iteration (H:=goRuntime) scenario initialState
          (line ("range start " +:+ "2024-09-24T18:30:00")) emptyWorld
    ∧ iteration (H:=goRuntime) scenario initialState
        (line ("range " +:+ "2024-09-24T18:30:00" +:+ " end")) emptyWorld
      = Some (Continue {| render := true;
                          graphOpts := {| minTimeSeconds := 1727202600;
                                          maxTimeSeconds := MaxInt64 |} |},
              say (Print "$ ") w1)
    ∧ minTimeSeconds defaultGraphOptions = 0%Z
    ∧ maxTimeSeconds defaultGraphOptions = MaxInt64.
Proof.
  apply (range_keywords_are_default_bounds (H:=goRuntime) scenario initialState
           "2024-09-24T18:30:00" "1970-01-01T00:00:00" 1727202600 emptyWorld).
  - split; [discriminate|reflexivity].
  - discriminate.
  - discriminate.
  - vm_compute. reflexivity.
  - split; [discriminate|reflexivity].
  - vm_compute. reflexivity.
Defined.

(** C8, as worded with the number [0] for the start bound, fails. A bound
    other than the keywords goes through [time.Parse] with the layout
    [2006-01-02T15:04:05], and the text [0] is no timestamp of that
    layout. From the window [100, 150], [range 0 2024-09-24T18:30:00]
    prints the parse error of the start bound and keeps the window, where
    [range start 2024-09-24T18:30:00] prints nothing but the prompt and
    moves the window to [0, 1727202600]. *)
Lemma range_zero_literal_is_rejected :
  ∃ e w1 afterZero wZero afterStart wStart,
    timeParse (Runtime:=goRuntime) "0" = Fail e
    ∧ renderBlock (H:=goRuntime) scenario
        {| render := true;
           graphOpts := {| minTimeSeconds := 100; maxTimeSeconds := 150 |} |}
        emptyWorld = Some (tt, w1)
    ∧ iteration (H:=goRuntime) scenario
        {| render := true;
           graphOpts := {| minTimeSeconds := 100; maxTimeSeconds := 150 |} |}
        (line "range 0 2024-09-24T18:30:00") emptyWorld
      = Some (Continue afterZero, wZero)
    ∧ iteration (H:=goRuntime) scenario
        {| render := true;
           graphOpts := {| minTimeSeconds := 100; maxTimeSeconds := 150 |} |}
        (line "range start 2024-09-24T18:30:00") emptyWorld
      = Some (Continue afterStart, wStart)
    ∧ graphOpts afterZero = {| minTimeSeconds := 100; maxTimeSeconds := 150 |}
    ∧ graphOpts afterStart = {| minTimeSeconds := 0; maxTimeSeconds := 1727202600 |}
    ∧ wZero = say (Printf startErrorFormat [AStr "0"; AErr e]) (say (Print "$ ") w1)
    ∧ wStart = say (Print "$ ") w1
    ∧ graphOpts afterZero ≠ graphOpts afterStart
    ∧ stdout wZero ≠ stdout wStart.
Proof.
  eexists _, _, _, _, _, _.
  split_and!; try (vm_compute; reflexivity); vm_compute; discriminate.
Qed.

(** ** C9 *)

(** C9. With no decoded data, routing creates no data file and leaves the
    map of metrics empty, and [CompileAndClose] still returns: the path
    of a new script that holds the preamble for zero metrics (a canvas
    of height 0, a layout of 0 rows) and no plot directive. *)
Theorem empty_data_compiles `{Runtime} (o : graphOptions) (w : World) :
  ∃ gpw w1 filename w2,
    route [] o w = Some (gpw, w1)
    ∧ metricFiles gpw = ∅ ∧ files w1 = files w
    ∧ CompileAndClose gpw w1 = Some (filename, w2)
    ∧ files w2 !! length (files w) = Some (mkFile filename (preamble 0) true)
    ∧ preamble 0
      = [ Text "set term png size 1000, 0";
          Text "set output 'plot.png'";
          Text "set multiplot layout 0,1 margins 0.05,0.9, 0.05,0.9 spacing screen 0, char 5";
          Text "set timefmt '%s'";
          Text "set format x '%H:%M:%S'";
          Text "set xlabel 'Time'";
          Text "set xdata time";
          Text "set yrange [0:*]" ].
Proof.
  destruct (newGnuPlotWriter_routed o w) as (gpw & w1 & Hnew & Hr & Hempty & _ & Hfiles & _).
  destruct (CompileAndClose_run gpw w1 (routed_valid _ _ _ Hr))
    as (w2 & Hrun & Hscript & _).
  eexists gpw, w1, _, w2. split_and!; try done.
  rewrite <- Hfiles, Hscript, Hempty.
  pose proof (mapRange_perm (S (entropy w1)) (∅ : gmap string nat)) as Hperm.
  rewrite map_to_list_empty in Hperm. apply Permutation_nil_r in Hperm.
  rewrite Hperm, map_size_empty. reflexivity.
Qed.

(** ** C10 *)

(** C10. A line that begins with [reset range], whatever follows (as in
    [reset ranges]), resets both bounds of the window to their defaults,
    prints nothing but the prompt, and leaves [render] set, so that the
    next iteration renders. *)
Theorem reset_range_prefix_resets `{Runtime} (data : list FlatDatum)
    (st : mainState) (s : string) (err : option error) (w : World) :
  GoStrings.HasPrefix s "reset range" = true → isEOF err = false →
  ∃ w1,
    renderBlock data st w = Some (tt, w1)
    ∧ iteration data st (s, err) w
      = Some (Continue {| render := true; graphOpts := defaultGraphOptions |},
              say (Print "$ ") w1)
    ∧ ∀ w2, ∃ w3,
        renderBlock data {| render := true; graphOpts := defaultGraphOptions |} w2
        = Some (tt, w3)
        ∧ length (execs w3) = S (length (execs w2)).
Proof.
  intros Hs Herr.
  destruct (renderBlock_run data st w) as (w1 & Hr & _).
  exists w1. split_and!; [done|by apply iteration_reset|].
  intros w2.
  destruct (renderBlock_run data {| render := true; graphOpts := defaultGraphOptions |} w2)
    as (w3 & Hr3 & Hex & _).
  exists w3. split; [done|]. by apply Hex.
Qed.

(** [reset ranges] resets the window that [range] made. *)
Lemma reset_range_prefix_resets_witness :
  ∃ w1,
    renderBlock (H:=goRuntime) scenario
      {| render := true;
         graphOpts := {| minTimeSeconds := 100; maxTimeSeconds := 150 |} |}
      emptyWorld = Some (tt, w1)
    ∧ iteration (H:=goRuntime) scenario
        {| render := true;
           graphOpts := {| minTimeSeconds := 100; maxTimeSeconds := 150 |} |}
        (line "reset ranges") emptyWorld
      = Some (Continue {| render := true; graphOpts := defaultGraphOptions |},
              say (Print "$ ") w1)
    ∧ ∀ w2, ∃ w3,
        renderBlock (H:=goRuntime) scenario
          {| render := true; graphOpts := defaultGraphOptions |} w2
        = Some (tt, w3)
        ∧ length (execs w3) = S (length (execs w2)).
Proof.
  apply (reset_range_prefix_resets (H:=goRuntime) scenario
           {| render := true;
              graphOpts := {| minTimeSeconds := 100; maxTimeSeconds := 150 |} |}
           ("reset ranges" +:+ newline) None emptyWorld).
  - vm_compute. reflexivity.
  - reflexivity.
Defined.

(** * More of the program *)

(** ** Routing a whole pass *)

Lemma addReadings_outside (o : graphOptions) (t : Z) (rs : list Reading)
    (gpw : gnuplotWriter) (w : World) :
  options gpw = o → ¬ inWindow o t →
  forEach (λ gpw reading, addPoint gpw t (MetricName reading) (Value reading))
          rs gpw w = Some (gpw, w).
Proof.
  intros <- Hout. induction rs as [|r rs IH]; [done|].
  simpl. unfold bind. unfold addPoint at 1.
  apply outside_true in Hout. rewrite Hout. exact IH.
Qed.

Lemma pointsOfReadings_outside (o : graphOptions) (t : Z) (rs : list Reading) (m : string) :
  ¬ inWindow o t → pointsOfReadings o t rs m = [].
Proof.
  intros Hout. induction rs as [|r rs IH]; [done|].
  simpl. by rewrite decide_False by tauto.
Qed.

Lemma pointsOfReadings_inside (o : graphOptions) (t : Z) (rs : list Reading) (m : string) :
  inWindow o t →
  pointsOfReadings o t rs m
  = map (λ r, Point t (Value r)) (filter (λ r, MetricName r = m) rs).
Proof.
  intros Hin. induction rs as [|r rs IH]; [done|].
  simpl. rewrite filter_cons. destruct (decide (MetricName r = m)) as [Hm|Hm].
  - rewrite decide_True by done. simpl. by rewrite IH.
  - rewrite decide_False by tauto. by rewrite IH.
Qed.

(** What a file of a routed writer holds, whether the metric has a file or
    not. *)
Lemma routed_series_default gpw w pts m :
  routed gpw w pts → default [] (series gpw w m) = pts m.
Proof.
  intros Hr. rewrite (routed_series _ _ _ m Hr).
  by destruct (decide (pts m = [])) as [->|].
Qed.

(** X1. A pass over the decoded data that completes (the operating system
    refused no temporary file) leaves, for every metric, the points of the
    data whose time is in the window, in the order of arrival (no sorting,
    no removal of duplicates), in an open data file of its own; a metric
    with no such point has no data file at all. *)
Theorem route_series (data : list FlatDatum) (o : graphOptions)
    (w w' : World) (gpw : gnuplotWriter) :
  route data o w = Some (gpw, w') →
  options gpw = o
  ∧ ∀ m,
      (pointsOf o data m = [] → metricFiles gpw !! m = None ∧ series gpw w' m = None)
      ∧ (pointsOf o data m ≠ [] →
         ∃ h name,
           metricFiles gpw !! m = Some h
           ∧ files w' !! h = Some (mkFile name (pointsOf o data m) false)
           ∧ series gpw w' m = Some (pointsOf o data m)).
Proof.
  intros Hrun.
  destruct (route_routed data o w) as (gpw0 & w0 & Hroute & Hr & Hopt & _).
  rewrite Hroute in Hrun. injection Hrun as -> ->.
  split; [done|].
  intros m. pose proof (routed_series _ _ _ m Hr) as Hseries.
  destruct (metricFiles gpw !! m) as [h|] eqn:Hm.
  - destruct (routed_some _ _ _ Hr _ _ Hm) as (name & Hh & Hne).
    split; [done|]. intros _. exists h, name.
    by rewrite Hseries, decide_False.
  - pose proof (routed_none _ _ _ Hr _ Hm) as Hnil.
    split; [|done]. intros _. by rewrite Hseries, decide_True.
Qed.

(** The scenario under the window [100, 150]. *)
Lemma route_series_witness :
  ∃ gpw w',
    route scenario {| minTimeSeconds := 100; maxTimeSeconds := 150 |} emptyWorld
    = Some (gpw, w')
    ∧ options gpw = {| minTimeSeconds := 100; maxTimeSeconds := 150 |}
    ∧ ∀ m,
        (pointsOf {| minTimeSeconds := 100; maxTimeSeconds := 150 |} scenario m = [] →
         metricFiles gpw !! m = None ∧ series gpw w' m = None)
        ∧ (pointsOf {| minTimeSeconds := 100; maxTimeSeconds := 150 |} scenario m ≠ [] →
           ∃ h name,
             metricFiles gpw !! m = Some h
             ∧ files w' !! h
               = Some (mkFile name
                         (pointsOf {| minTimeSeconds := 100; maxTimeSeconds := 150 |}
                            scenario m) false)
             ∧ series gpw w' m
               = Some (pointsOf {| minTimeSeconds := 100; maxTimeSeconds := 150 |}
                         scenario m)).
Proof.
  eexists _, _. split; [vm_compute; reflexivity|].
  apply (route_series scenario {| minTimeSeconds := 100; maxTimeSeconds := 150 |}
           emptyWorld).
  vm_compute. reflexivity.
Defined.

(** The points a window admits, as the window widens. *)
Lemma pointsOf_sublist (o1 o2 : graphOptions) (data : list FlatDatum) (m : string) :
  (minTimeSeconds o2 ≤ minTimeSeconds o1)%Z →
  (maxTimeSeconds o1 ≤ maxTimeSeconds o2)%Z →
  pointsOf o1 data m `sublist_of` pointsOf o2 data m.
Proof.
  intros Hmin Hmax. induction data as [|d data IH]; [done|].
  simpl. apply sublist_app; [|done].
  destruct (decide (inWindow o1 (ConvertedTimeUnix d))) as [Hin|Hout].
  - assert (inWindow o2 (ConvertedTimeUnix d)) by (unfold inWindow in *; lia).
    by rewrite !pointsOfReadings_inside.
  - rewrite (pointsOfReadings_outside o1) by done. apply sublist_nil_l.
Qed.

(** X2. Zooming in never adds a point: when the window [o1] lies within
    the window [o2], what a pass under [o1] leaves in the data file of a
    metric is a sublist of what a pass under [o2] over the same data
    leaves in it (nothing, when the metric has no file). *)
Theorem narrower_window_sublist
    (o1 o2 : graphOptions) (data : list FlatDatum)
    (w1 w1' w2 w2' : World) (gpw1 gpw2 : gnuplotWriter) (m : string) :
  (minTimeSeconds o2 ≤ minTimeSeconds o1)%Z →
  (maxTimeSeconds o1 ≤ maxTimeSeconds o2)%Z →
  route data o1 w1 = Some (gpw1, w1') →
  route data o2 w2 = Some (gpw2, w2') →
  default [] (series gpw1 w1' m) `sublist_of` default [] (series gpw2 w2' m)
  ∧ (metricFiles gpw2 !! m = None → metricFiles gpw1 !! m = None).
Proof.
  intros Hmin Hmax Hrun1 Hrun2.
  destruct (route_routed data o1 w1) as (g1 & v1 & Hroute1 & Hr1 & _).
  destruct (route_routed data o2 w2) as (g2 & v2 & Hroute2 & Hr2 & _).
  rewrite Hroute1 in Hrun1. injection Hrun1 as -> ->.
  rewrite Hroute2 in Hrun2. injection Hrun2 as -> ->.
  pose proof (pointsOf_sublist o1 o2 data m Hmin Hmax) as Hsub.
  rewrite (routed_series_default _ _ _ m Hr1), (routed_series_default _ _ _ m Hr2).
  split; [done|]. intros Hnone.
  pose proof (routed_none _ _ _ Hr2 _ Hnone) as Hnil. rewrite Hnil in Hsub.
  apply sublist_nil_r in Hsub.
  destruct (metricFiles gpw1 !! m) as [h|] eqn:Hm; [|done].
  by destruct (routed_some _ _ _ Hr1 _ _ Hm) as (name & _ & Hne).
Qed.

(** The scenario: the window [100, 150] within the default one. *)
Lemma narrower_window_sublist_witness :
  ∃ gpw1 w1' gpw2 w2',
    route scenario {| minTimeSeconds := 100; maxTimeSeconds := 150 |} emptyWorld
    = Some (gpw1, w1')
    ∧ route scenario defaultGraphOptions emptyWorld = Some (gpw2, w2')
    ∧ default [] (series gpw1 w1' "cpu") `sublist_of` default [] (series gpw2 w2' "cpu")
    ∧ (metricFiles gpw2 !! "cpu" = None → metricFiles gpw1 !! "cpu" = None).
Proof.
  eexists _, _, _, _.
  split; [vm_compute; reflexivity|]. split; [vm_compute; reflexivity|].
  apply (narrower_window_sublist
           {| minTimeSeconds := 100; maxTimeSeconds := 150 |} defaultGraphOptions
           scenario emptyWorld _ emptyWorld).
  - simpl. lia.
  - simpl. unfold MaxInt64. lia.
  - vm_compute. reflexivity.
  - vm_compute. reflexivity.
Defined.

Lemma addData_outside (o : graphOptions) (data : list FlatDatum)
    (gpw : gnuplotWriter) (w : World) :
  options gpw = o → (∀ t, ¬ inWindow o t) →
  forEach addFlatDatum data gpw w = Some (gpw, w).
Proof.
  intros Hopt Hout. induction data as [|d data IH]; [done|].
  simpl. unfold bind. unfold addFlatDatum at 1.
  by rewrite (addReadings_outside o _ _ _ _ Hopt (Hout _)).
Qed.

Lemma pointsOf_outside (o : graphOptions) (data : list FlatDatum) (m : string) :
  (∀ t, ¬ inWindow o t) → pointsOf o data m = [].
Proof.
  intros Hout. induction data as [|d data IH]; [done|].
  simpl. by rewrite pointsOfReadings_outside.
Qed.

(** X3. A window whose start is after its end is not rejected; it admits
    no point: the pass creates no data file and the map of metrics stays
    empty. *)
Theorem inverted_window_routes_nothing
    (data : list FlatDatum) (o : graphOptions) (w : World) :
  (maxTimeSeconds o < minTimeSeconds o)%Z →
  route data o w = newGnuPlotWriter o w
  ∧ ∃ gpw w',
      route data o w = Some (gpw, w')
      ∧ metricFiles gpw = ∅ ∧ files w' = files w
      ∧ ∀ m, pointsOf o data m = [].
Proof.
  intros Hinv.
  assert (∀ t, ¬ inWindow o t) as Hout by (intros t; unfold inWindow; lia).
  destruct (newGnuPlotWriter_routed o w) as (gpw & w' & Hnew & _ & Hempty & Hopt & Hfiles & _).
  assert (route data o w = newGnuPlotWriter o w) as Heq.
  { unfold route. rewrite (bind_run _ _ _ _ _ Hnew), Hnew. by apply (addData_outside o). }
  split; [done|]. exists gpw, w'. rewrite Heq. split_and!; [done..|].
  intros m. by apply pointsOf_outside.
Qed.

Lemma inverted_window_routes_nothing_witness :
  route scenario {| minTimeSeconds := 150; maxTimeSeconds := 100 |} emptyWorld
  = newGnuPlotWriter {| minTimeSeconds := 150; maxTimeSeconds := 100 |} emptyWorld
  ∧ ∃ gpw w',
      route scenario {| minTimeSeconds := 150; maxTimeSeconds := 100 |} emptyWorld
      = Some (gpw, w')
      ∧ metricFiles gpw = ∅ ∧ files w' = files emptyWorld
      ∧ ∀ m, pointsOf {| minTimeSeconds := 150; maxTimeSeconds := 100 |} scenario m = [].
Proof.
  apply (inverted_window_routes_nothing scenario
           {| minTimeSeconds := 150; maxTimeSeconds := 100 |} emptyWorld).
  simpl. lia.
Defined.

(** Under the default window every point with a time in [0, MaxInt64] is
    kept. *)
Lemma pointsOf_default (data : list FlatDatum) (m : string) :
  Forall (λ d, (0 ≤ ConvertedTimeUnix d ≤ MaxInt64)%Z) data →
  pointsOf defaultGraphOptions data m = readingsOf data m.
Proof.
  intros Hall. induction Hall as [|d data Hd _ IH]; [done|].
  simpl. rewrite pointsOfReadings_inside by done. by rewrite IH.
Qed.

(** X4. The default window is unrestricted for the times from 1970 on: when
    every datum has a time in [0, MaxInt64], a pass under
    [defaultGraphOptions] that completes leaves in the data file of each
    metric all its readings, in the order of arrival. A datum with a
    negative time is dropped even so: [addFlatDatum] on it, for a writer
    with the default window, writes nothing and creates no file. *)
Theorem default_window_keeps_all (data : list FlatDatum)
    (w w' : World) (gpw : gnuplotWriter) :
  Forall (λ d, (0 ≤ ConvertedTimeUnix d ≤ MaxInt64)%Z) data →
  route data defaultGraphOptions w = Some (gpw, w') →
  (∀ m, default [] (series gpw w' m) = readingsOf data m)
  ∧ (∀ m, metricFiles gpw !! m = None ↔ readingsOf data m = [])
  ∧ ∀ d, (ConvertedTimeUnix d < 0)%Z →
         addFlatDatum gpw d w' = Some (gpw, w')
         ∧ route (data ++ [d]) defaultGraphOptions w = Some (gpw, w').
Proof.
  intros Hall Hrun.
  destruct (route_routed data defaultGraphOptions w) as (g & v & Hroute & Hr & Hopt & _).
  rewrite Hroute in Hrun. injection Hrun as -> ->.
  split_and!.
  - intros m. by rewrite (routed_series_default _ _ _ m Hr), pointsOf_default.
  - intros m. rewrite <- (pointsOf_default data m Hall). split.
    + by apply (routed_none _ _ _ Hr).
    + intros Hnil. destruct (metricFiles gpw !! m) as [h|] eqn:Hm; [|done].
      by destruct (routed_some _ _ _ Hr _ _ Hm) as (name & _ & Hne).
  - intros d Hneg.
    assert (addFlatDatum gpw d w' = Some (gpw, w')) as Hadd.
    { unfold addFlatDatum. apply (addReadings_outside defaultGraphOptions); [done|].
      unfold inWindow. simpl. lia. }
    split; [done|].
    unfold route in *.
    destruct (newGnuPlotWriter defaultGraphOptions w) as [[g0 v0]|] eqn:Hnew; [|done].
    rewrite (bind_run _ _ _ _ _ Hnew) in Hroute. rewrite (bind_run _ _ _ _ _ Hnew).
    clear Hnew Hr Hopt Hall. revert g0 v0 Hroute.
    induction data as [|d0 data IH]; intros g0 v0 Hroute.
    + simpl in Hroute. injection Hroute as -> ->. simpl. unfold bind.
      by rewrite Hadd.
    + simpl in *. unfold bind at 1 in Hroute. unfold bind at 1.
      destruct (addFlatDatum g0 d0 v0) as [[g1 v1']|]; [|done]. by apply IH.
Qed.

(** The scenario, whose times are 100, 200 and 150. *)
Lemma default_window_keeps_all_witness :
  ∃ gpw w',
    route scenario defaultGraphOptions emptyWorld = Some (gpw, w')
    ∧ (∀ m, default [] (series gpw w' m) = readingsOf scenario m)
    ∧ (∀ m, metricFiles gpw !! m = None ↔ readingsOf scenario m = [])
    ∧ ∀ d, (ConvertedTimeUnix d < 0)%Z →
           addFlatDatum gpw d w' = Some (gpw, w')
           ∧ route (scenario ++ [d]) defaultGraphOptions emptyWorld = Some (gpw, w').
Proof.
  eexists _, _. split; [vm_compute; reflexivity|].
  apply (default_window_keeps_all scenario emptyWorld).
  - repeat constructor; simpl; unfold MaxInt64; lia.
  - vm_compute. reflexivity.
Defined.

(** ** The files of a pass *)

(** What the loop of [CompileAndClose] does to the files other than the
    script: name and lines stay, and the file is closed when it is one
    of the entries. *)
Lemma plotLoop_after (g : nat) (es : list (string * nat)) (w w' : World) :
  forEach (plotEntry g) es tt w = Some (tt, w') →
  length (files w') = length (files w)
  ∧ ∀ h f, h ≠ g → files w !! h = Some f →
      files w' !! h
      = Some (mkFile (fileName f) (fileLines f)
                (fileClosed f || bool_decide (h ∈ es.*2))).
Proof.
  revert w. induction es as [|[m h0] es IH]; intros w Hrun.
  { simpl in Hrun. injection Hrun as <-. split; [done|].
    intros h [n l c] _ ->. simpl. by rewrite orb_false_r. }
  simpl in Hrun. unfold bind at 1 in Hrun.
  destruct (bind (Name h0) _ w) as [[[] w2]|] eqn:Hentry; [|done].
  unfold bind, Name, writeln, Close in Hentry.
  destruct (files w !! h0) as [f0|] eqn:Hf0; [|done].
  destruct (files w !! g) as [fg|] eqn:Hfg; [|done].
  destruct (fileClosed fg); [done|]. simpl in Hentry.
  destruct (<[g:=_]> (files w) !! h0) as [f0'|] eqn:Hf0'; [|done].
  injection Hentry as <-.
  destruct (IH _ Hrun) as [Hlen Hframe]. simpl in Hlen, Hframe.
  split; [by rewrite Hlen, !length_insert|].
  intros h f Hne Hf.
  assert (h0 < length (files w)) as Hlt0 by (by eapply lookup_lt_Some).
  destruct (decide (h = h0)) as [->|Hne0].
  - rewrite list_lookup_insert_ne in Hf0' by done.
    assert (f0' = f) as -> by congruence.
    rewrite (Hframe h0 (mkFile (fileName f) (fileLines f) true)); [|done|].
    + simpl. rewrite (bool_decide_eq_true_2 (h0 ∈ _)) by (by left).
      by rewrite orb_true_r.
    + rewrite list_lookup_insert_eq; [done|]. by rewrite length_insert.
  - rewrite (Hframe h f); [|done|].
    + do 3 f_equal. apply bool_decide_ext. simpl. rewrite elem_of_cons.
      intuition congruence.
    + by rewrite !list_lookup_insert_ne.
Qed.

(** The table of files after [CompileAndClose]: one more file, the
    script, closed; the files that were there keep name and lines, and
    the data files of the writer are closed. *)
Lemma CompileAndClose_files `{Runtime} (gpw : gnuplotWriter) (w w' : World)
    (filename : string) :
  CompileAndClose gpw w = Some (filename, w') →
  length (files w') = S (length (files w))
  ∧ (∀ h f, files w !! h = Some f →
       files w' !! h
       = Some (mkFile (fileName f) (fileLines f)
                 (fileClosed f || bool_decide (h ∈ dataFiles gpw))))
  ∧ ∃ script,
      files w' !! length (files w) = Some script
      ∧ fileName script = filename ∧ fileClosed script = true.
Proof.
  destruct w as [fs so ex en]. simpl. unfold CompileAndClose.
  unfold bind at 1. unfold CreateTemp at 1. unfold bind at 1. simpl.
  rewrite (bind_run _ _ _ _ _ (writeln_new _ _ _ _ _ _ _)).
  unfold bind at 1. unfold nolintPrintln, output, say. simpl.
  do 7 rewrite (bind_run _ _ _ _ _ (writeln_new _ _ _ _ _ _ _)).
  unfold bind at 1. simpl.
  set (entries := mapRange (S en) (metricFiles gpw)).
  set (w1 := mkWorld _ _ _ _).
  unfold bind at 1.
  destruct (forEach (plotEntry (length fs)) entries () w1) as [[[] w2]|] eqn:Hloop; [|done].
  destruct (plotLoop_after _ _ _ _ Hloop) as [Hlen Hframe].
  unfold bind at 1. unfold Name at 1.
  destruct (files w2 !! length fs) as [fg|] eqn:Hg; [|done].
  unfold bind at 1. unfold Close at 1. rewrite Hg. unfold ret.
  intros [= <- <-]. simpl.
  assert (length (files w2) = S (length fs)) as Hlen2.
  { rewrite Hlen. unfold w1. simpl. rewrite length_app. simpl. lia. }
  split_and!.
  - by rewrite length_insert.
  - intros h f Hf. pose proof (lookup_lt_Some _ _ _ Hf) as Hlt.
    rewrite list_lookup_insert_ne by lia.
    rewrite (Hframe h f); [|lia|].
    + do 3 f_equal. apply bool_decide_ext. unfold entries, dataFiles.
      by rewrite mapRange_perm.
    + unfold w1. simpl. by rewrite lookup_app_l.
  - eexists. rewrite list_lookup_insert_eq by lia. done.
Qed.

(** Adding a point touches no file below [base] when the data files of
    the writer are above it, and creates a file exactly when it adds a
    metric to the map. *)
Lemma addPoint_frame (base : nat) (gpw gpw' : gnuplotWriter) (w w' : World)
    (t : Z) (m : string) (v : float32) :
  (∀ m h, metricFiles gpw !! m = Some h → base ≤ h) →
  base ≤ length (files w) →
  addPoint gpw t m v w = Some (gpw', w') →
  (∀ m h, metricFiles gpw' !! m = Some h → base ≤ h)
  ∧ base ≤ length (files w')
  ∧ take base (files w') = take base (files w)
  ∧ length (files w') + size (metricFiles gpw)
    = length (files w) + size (metricFiles gpw').
Proof.
  intros Habove Hbase. unfold addPoint.
  destruct (_ || _)%Z; [by intros [= <- <-]|].
  unfold getDatafile. destruct (metricFiles gpw !! m) as [h|] eqn:Hm.
  - unfold bind, ret, writeln.
    destruct (files w !! h) as [f|] eqn:Hf; [|done].
    destruct (fileClosed f); [done|]. intros [= <- <-]. simpl.
    split_and!; [done| |by rewrite take_insert_ge by eauto|].
    + by rewrite length_insert.
    + by rewrite length_insert.
  - unfold bind, ret, writeln, CreateTemp, random. simpl.
    rewrite lookup_app_r by done. rewrite Nat.sub_diag. simpl.
    intros [= <- <-]. simpl.
    rewrite length_insert, length_app, map_size_insert_None by done. simpl.
    split_and!; [|lia| |lia].
    + intros m' h'. rewrite lookup_insert. case_decide; [|by eauto].
      by intros [= <-].
    + rewrite take_insert_ge by done. by rewrite take_app_le.
Qed.

Lemma addReadings_frame (base : nat) (t : Z) (rs : list Reading)
    (gpw gpw' : gnuplotWriter) (w w' : World) :
  (∀ m h, metricFiles gpw !! m = Some h → base ≤ h) →
  base ≤ length (files w) →
  forEach (λ gpw reading, addPoint gpw t (MetricName reading) (Value reading))
          rs gpw w = Some (gpw', w') →
  (∀ m h, metricFiles gpw' !! m = Some h → base ≤ h)
  ∧ base ≤ length (files w')
  ∧ take base (files w') = take base (files w)
  ∧ length (files w') + size (metricFiles gpw)
    = length (files w) + size (metricFiles gpw').
Proof.
  revert gpw w. induction rs as [|r rs IH]; intros gpw w Habove Hbase.
  { by intros [= <- <-]. }
  simpl. unfold bind at 1.
  destruct (addPoint gpw t (MetricName r) (Value r) w) as [[gpw1 w1]|] eqn:Hadd; [|done].
  intros Hrest.
  destruct (addPoint_frame base _ _ _ _ _ _ _ Habove Hbase Hadd) as (Ha1 & Hb1 & Ht1 & Hl1).
  destruct (IH _ _ Ha1 Hb1 Hrest) as (Ha2 & Hb2 & Ht2 & Hl2).
  split_and!; [done..|congruence|lia].
Qed.

Lemma addData_frame (base : nat) (data : list FlatDatum)
    (gpw gpw' : gnuplotWriter) (w w' : World) :
  (∀ m h, metricFiles gpw !! m = Some h → base ≤ h) →
  base ≤ length (files w) →
  forEach addFlatDatum data gpw w = Some (gpw', w') →
  (∀ m h, metricFiles gpw' !! m = Some h → base ≤ h)
  ∧ base ≤ length (files w')
  ∧ take base (files w') = take base (files w)
  ∧ length (files w') + size (metricFiles gpw)
    = length (files w) + size (metricFiles gpw').
Proof.
  revert gpw w. induction data as [|d data IH]; intros gpw w Habove Hbase.
  { by intros [= <- <-]. }
  simpl. unfold bind at 1.
  destruct (addFlatDatum gpw d w) as [[gpw1 w1]|] eqn:Hadd; [|done].
  intros Hrest.
  destruct (addReadings_frame base _ _ _ _ _ _ Habove Hbase Hadd) as (Ha1 & Hb1 & Ht1 & Hl1).
  destruct (IH _ _ Ha1 Hb1 Hrest) as (Ha2 & Hb2 & Ht2 & Hl2).
  split_and!; [done..|congruence|lia].
Qed.

(** A pass adds its data files after the files that exist, one per
    metric of the map, and leaves those that exist as they are. *)
Lemma route_frame (data : list FlatDatum) (o : graphOptions)
    (gpw : gnuplotWriter) (w w' : World) :
  route data o w = Some (gpw, w') →
  (∀ m h, metricFiles gpw !! m = Some h → length (files w) ≤ h)
  ∧ take (length (files w)) (files w') = files w
  ∧ length (files w') = length (files w) + size (metricFiles gpw).
Proof.
  unfold route, bind.
  destruct (newGnuPlotWriter o w) as [[gpw0 w0]|] eqn:Hnew; [|done].
  destruct (newGnuPlotWriter_routed o w) as (? & ? & Hnew' & _ & Hempty & _ & Hfiles & _).
  rewrite Hnew in Hnew'. injection Hnew' as <- <-.
  intros Hrun.
  destruct (addData_frame (length (files w)) data gpw0 gpw w0 w') as (Ha & Hb & Ht & Hl);
    [rewrite Hempty; intros ??; by rewrite lookup_empty|by rewrite Hfiles|done|].
  rewrite Hempty, map_size_empty, Hfiles in Hl.
  split_and!; [done| |lia].
  rewrite Ht, Hfiles. by apply take_ge.
Qed.

Lemma elem_of_dataFiles (gpw : gnuplotWriter) (h : nat) :
  h ∈ dataFiles gpw ↔ ∃ m, metricFiles gpw !! m = Some h.
Proof.
  unfold dataFiles. rewrite list_elem_of_fmap. split.
  - intros [[m h'] [-> Hin%elem_of_map_to_list]]. by exists m.
  - intros [m Hm]. exists (m, h). split; [done|]. by apply elem_of_map_to_list.
Qed.

(** X5. A render pass never changes or removes a file that exists, those
    of earlier passes included, and never reuses one: it adds one data
    file for each metric that has a point in the window, and the
    script. *)
Theorem render_pass_files `{Runtime} (data : list FlatDatum) (o : graphOptions) (w : World) :
  ∃ gpw w1 filename w2,
    route data o w = Some (gpw, w1)
    ∧ CompileAndClose gpw w1 = Some (filename, w2)
    ∧ take (length (files w)) (files w2) = files w
    ∧ length (files w2) = length (files w) + length (firstSeen o data) + 1.
Proof.
  destruct (route_routed data o w) as (gpw & w1 & Hroute & Hr & _ & _).
  destruct (CompileAndClose_run gpw w1 (routed_valid _ _ _ Hr)) as (w2 & Hrun & _).
  destruct (route_frame _ _ _ _ _ Hroute) as (Habove & Htake & Hlen).
  destruct (CompileAndClose_files _ _ _ _ Hrun) as (Hlen2 & Hframe & _).
  destruct (routed_entries gpw w1 o data 0 Hr) as [_ Hsize].
  eexists gpw, w1, _, w2. split_and!; [done..| |lia].
  rewrite <- Htake at 2. apply list_eq. intros i.
  destruct (decide (i < length (files w))) as [Hlt|Hge].
  - rewrite !lookup_take_lt by done.
    destruct (files w1 !! i) as [f|] eqn:Hf.
    + rewrite (Hframe _ _ Hf).
      rewrite bool_decide_eq_false_2.
      * rewrite orb_false_r. by destruct f.
      * intros [m Hm]%elem_of_dataFiles. apply Habove in Hm. lia.
    + apply lookup_ge_None in Hf. lia.
  - by rewrite !lookup_take_ge by lia.
Qed.

(** ** The script and its data files *)

(** X6. After a pass and [CompileAndClose], the script is closed and has
    one plot directive for each metric with a point in the window and no
    other: the directive names the data file of the metric, which is
    closed and holds the points of the metric, at least one. *)
Theorem script_plots_closed_data_files `{Runtime}
    (data : list FlatDatum) (o : graphOptions) (w : World) :
  ∃ gpw w1 filename w2 script,
    route data o w = Some (gpw, w1)
    ∧ CompileAndClose gpw w1 = Some (filename, w2)
    ∧ files w2 !! length (files w1) = Some script
    ∧ fileName script = filename ∧ fileClosed script = true
    ∧ length (plotDirectives script) = length (firstSeen o data)
    ∧ (∀ m, pointsOf o data m ≠ [] →
         ∃ h f, metricFiles gpw !! m = Some h
                ∧ files w2 !! h = Some f
                ∧ fileLines f = pointsOf o data m ∧ fileClosed f = true
                ∧ Text (plotLine (fileName f) m) ∈ plotDirectives script)
    ∧ (∀ l, l ∈ plotDirectives script →
         ∃ m h f, pointsOf o data m ≠ []
                  ∧ metricFiles gpw !! m = Some h
                  ∧ files w2 !! h = Some f
                  ∧ l = Text (plotLine (fileName f) m)).
Proof.
  destruct (route_routed data o w) as (gpw & w1 & Hroute & Hr & _ & _).
  destruct (CompileAndClose_run gpw w1 (routed_valid _ _ _ Hr))
    as (w2 & Hrun & Hscript & _).
  destruct (CompileAndClose_files _ _ _ _ Hrun) as (_ & Hframe & _).
  destruct (routed_entries gpw w1 o data (S (entropy w1)) Hr) as [Hperm _].
  set (entries := mapRange (S (entropy w1)) (metricFiles gpw)) in *.
  assert (∀ m h, (m, h) ∈ entries ↔ metricFiles gpw !! m = Some h) as Hentries.
  { intros m h. unfold entries. by rewrite mapRange_perm, elem_of_map_to_list. }
  assert (∀ m h, metricFiles gpw !! m = Some h →
            ∃ f, files w1 !! h = Some (mkFile (fileName f) (pointsOf o data m) false)
                 ∧ files w2 !! h = Some f
                 ∧ fileLines f = pointsOf o data m ∧ fileClosed f = true
                 ∧ nameAt w1 h = fileName f ∧ pointsOf o data m ≠ []) as Hfile.
  { intros m h Hm. destruct (routed_some _ _ _ Hr _ _ Hm) as (name & Hh & Hne).
    exists (mkFile name (pointsOf o data m) true).
    rewrite (Hframe _ _ Hh). simpl. split_and!; [done| |done..| |done].
    - rewrite bool_decide_eq_true_2; [done|]. apply elem_of_dataFiles. by exists m.
    - unfold nameAt. by rewrite Hh. }
  eexists gpw, w1, _, w2, _. split_and!; [done..| | |].
  - unfold plotDirectives, plotLines. simpl. rewrite drop_0.
    by rewrite List.length_map, <- Hperm, length_fmap.
  - intros m Hne. destruct (metricFiles gpw !! m) as [h|] eqn:Hm;
      [|by destruct Hne; eapply routed_none].
    destruct (Hfile _ _ Hm) as (f & _ & Hf & Hlines & Hclosed & Hname & _).
    exists h, f. split_and!; [done..|].
    unfold plotDirectives, plotLines. simpl. rewrite drop_0.
    apply list_elem_of_fmap.
    exists (m, h). simpl. rewrite Hname. split; [done|]. by apply Hentries.
  - intros l. unfold plotDirectives, plotLines. simpl. rewrite drop_0.
    intros [[m h] [-> Hin%Hentries]]%list_elem_of_fmap. simpl.
    destruct (Hfile _ _ Hin) as (f & _ & Hf & _ & _ & Hname & Hne).
    exists m, h, f. by rewrite Hname.
Qed.

(** X7. Once [CompileAndClose] has run, the writer takes no further
    point for a metric it has a file for: the file is closed, the write
    fails and [writeln] panics. *)
Theorem addPoint_after_compile_panics `{Runtime}
    (gpw : gnuplotWriter) (w w' : World) (pts : string → list Line)
    (filename : string) (t : Z) (m : string) (v : float32) :
  routed gpw w pts →
  CompileAndClose gpw w = Some (filename, w') →
  inWindow (options gpw) t → pts m ≠ [] →
  addPoint gpw t m v w' = None.
Proof.
  intros Hr Hrun Hin Hne.
  destruct (CompileAndClose_files _ _ _ _ Hrun) as (_ & Hframe & _).
  destruct (metricFiles gpw !! m) as [h|] eqn:Hm;
    [|by destruct Hne; eapply routed_none].
  destruct (routed_some _ _ _ Hr _ _ Hm) as (name & Hh & _).
  unfold addPoint. apply outside_false in Hin. rewrite Hin.
  unfold getDatafile. rewrite Hm. unfold bind, ret, writeln.
  rewrite (Hframe _ _ Hh). simpl.
  rewrite bool_decide_eq_true_2; [done|].
  apply elem_of_dataFiles. by exists m.
Qed.

Lemma addPoint_after_compile_panics_witness :
  ∃ filename w',
    CompileAndClose (H:=goRuntime) writerWithCpu worldWithCpu = Some (filename, w')
    ∧ addPoint writerWithCpu 150 "cpu" 1073741824%Z w' = None.
Proof.
  eexists _, _. split; [vm_compute; reflexivity|].
  eapply (addPoint_after_compile_panics (H:=goRuntime) writerWithCpu worldWithCpu _
            pointsWithCpu).
  - exact routed_withCpu.
  - vm_compute. reflexivity.
  - unfold inWindow. simpl. lia.
  - discriminate.
Defined.

(** ** Titles *)

Lemma escapeTitle_cons (a : ascii) (s : string) :
  escapeTitle (String a s)
  = if Ascii.eqb a "_" then String "\" (String "_" (escapeTitle s))
    else String a (escapeTitle s).
Proof. unfold escapeTitle. simpl. by destruct (Ascii.eqb a "_"). Qed.

Lemma escapeTitle_head (s : string) :
  match escapeTitle s with
  | String b _ => Ascii.eqb b "_" = false
  | EmptyString => True
  end.
Proof.
  destruct s as [|a s]; [done|]. rewrite escapeTitle_cons.
  by destruct (Ascii.eqb a "_") eqn:Ha.
Qed.

Lemma unescapeTitle_cons (a : ascii) (s : string) :
  match s with
  | String b _ => Ascii.eqb b "_" = false
  | EmptyString => True
  end →
  unescapeTitle (String a s) = String a (unescapeTitle s).
Proof.
  intros Hs. destruct (Ascii.eqb a "\") eqn:Ha.
  - apply Ascii.eqb_eq in Ha as ->. destruct s as [|b s]; [done|].
    destruct b as [[] [] [] [] [] [] [] []]; try reflexivity. discriminate.
  - destruct a as [[] [] [] [] [] [] [] []]; try reflexivity. discriminate.
Qed.

(** X8. The escaping of underscores in the title of a graph loses
    nothing and leaves no underscore bare: the metric name is read back
    from the title, so two metric names never share a title, and in the
    title every underscore comes right after a backslash. *)
Theorem escapeTitle_round_trip (metricName : string) :
  unescapeTitle (escapeTitle metricName) = metricName
  ∧ (∀ other, escapeTitle other = escapeTitle metricName → other = metricName)
  ∧ (∀ escaped, bareUnderscore escaped (escapeTitle metricName) = false)
  ∧ ∀ fileName,
      plotLine fileName metricName
      = "plot '" +:+ fileName
        +:+ "' using 1:2 with lines linestyle 7 lw 4 title '"
        +:+ escapeTitle metricName +:+ "'".
Proof.
  assert (∀ s, unescapeTitle (escapeTitle s) = s) as Hback.
  { induction s as [|a s IH]; [done|]. rewrite escapeTitle_cons.
    destruct (Ascii.eqb a "_") eqn:Ha.
    - apply Ascii.eqb_eq in Ha as ->. simpl. by rewrite IH.
    - rewrite unescapeTitle_cons by apply escapeTitle_head. by rewrite IH. }
  split_and!; [done| | |done].
  - intros other Heq. by rewrite <- (Hback other), Heq.
  - induction metricName as [|a s IH]; intros escaped; [done|].
    rewrite escapeTitle_cons. destruct (Ascii.eqb a "_") eqn:Ha.
    + simpl. by rewrite IH.
    + simpl. by rewrite Ha, IH.
Qed.

(** ** Rendering *)



(** ** The loop *)

Lemma rangeStart_total `{Runtime} (o : graphOptions) (start end_ : string) (w : World) :
  ∃ st' w', rangeStart o start end_ w = Some (Continue st', w') ∧ render st' = true.
Proof.
  assert (∀ o' w0, ∃ st' w', rangeEnd o' end_ w0 = Some (Continue st', w')
                             ∧ render st' = true) as Hend.
  { intros o' w0. unfold rangeEnd. destruct (String.eqb end_ "end"); [by eexists _, _|].
    destruct (timeParse end_); by eexists _, _. }
  unfold rangeStart. destruct (String.eqb start "start"); [apply Hend|].
  destruct (timeParse start); [apply Hend|by eexists _, _].
Qed.

(** X10. Past the render block, the one input that makes an iteration
    panic is a [range] line with fewer than two bounds: when the render
    block at its start returns, the iteration panics if and only if the
    read did not end the input and the trimmed line has the prefix
    [range ] and splits into fewer than three pieces. *)
Theorem iteration_panics_iff `{Runtime} (data : list FlatDatum)
    (st : mainState) (s : string) (err : option error) (w w1 : World) :
  renderBlock data st w = Some (tt, w1) →
  iteration data st (s, err) w = None
  ↔ isEOF err = false
    ∧ GoStrings.HasPrefix (GoStrings.TrimSpace s) "range " = true
    ∧ length (GoStrings.SplitN (GoStrings.TrimSpace s) " " 3) < 3.
Proof.
  intros Hr.
  rewrite (iteration_run _ _ _ _ _ _ Hr).
  generalize (GoStrings.TrimSpace s) (say (Print "$ ") w1). clear. intros cmd w.
  unfold command. destruct (isEOF err); [by split; [|intros [? _]]|].
  destruct (String.eqb cmd "quit") eqn:Hquit.
  { apply String.eqb_eq in Hquit as ->. by split; [|intros (_ & ? & _)]. }
  destruct (String.eqb cmd "h") eqn:Hh.
  { apply String.eqb_eq in Hh as ->. by split; [|intros (_ & ? & _)]. }
  destruct (String.eqb cmd "help") eqn:Hhelp.
  { apply String.eqb_eq in Hhelp as ->. by split; [|intros (_ & ? & _)]. }
  cbn [orb]. destruct (GoStrings.HasPrefix cmd "range ") eqn:Hrange.
  - unfold rangeCommand.
    destruct (GoStrings.SplitN cmd " " 3 !! 2) as [end_|] eqn:H2.
    + pose proof (lookup_lt_Some _ _ _ H2) as Hlen.
      destruct (GoStrings.SplitN cmd " " 3 !! 1) as [start|] eqn:H1;
        [|apply lookup_ge_None in H1; lia].
      destruct (rangeStart_total (graphOpts st) start end_ w) as (st' & w' & Hrun & _).
      rewrite Hrun. split; [done|]. intros (_ & _ & ?). lia.
    + pose proof (proj1 (lookup_ge_None _ _) H2) as Hlen.
      split; [intros _; split_and!; [done..|lia]|intros _].
      by destruct (GoStrings.SplitN cmd " " 3 !! 1).
  - split; [|by intros (_ & ? & _)].
    destruct (GoStrings.HasPrefix cmd "reset range"); [done|].
    by destruct (String.length cmd =? 0).
Qed.

(** [range 100], after a render of the scenario. *)
Lemma iteration_panics_iff_witness :
  ∃ w1,
    renderBlock (H:=goRuntime) scenario initialState emptyWorld = Some (tt, w1)
    ∧ (iteration (H:=goRuntime) scenario initialState (line "range 100") emptyWorld = None
       ↔ isEOF None = false
         ∧ GoStrings.HasPrefix (GoStrings.TrimSpace ("range 100" +:+ newline)) "range " = true
         ∧ length (GoStrings.SplitN (GoStrings.TrimSpace ("range 100" +:+ newline)) " " 3) < 3).
Proof.
  eexists. split; [vm_compute; reflexivity|].
  eapply (iteration_panics_iff (H:=goRuntime) scenario initialState
            ("range 100" +:+ newline) None emptyWorld).
  vm_compute. reflexivity.
Defined.

(** X11. Only [range] and [reset range] lines move the window or ask for
    a render: an iteration on any other line that goes on ([h], [help],
    an empty line, an unknown command) leaves the window as it is, clears
    [render], and creates no file and runs no [gnuplot] beyond the render
    block at its start. *)
Theorem other_lines_keep_window `{Runtime} (data : list FlatDatum)
    (st st' : mainState) (s : string) (err : option error) (w w' : World) :
  GoStrings.HasPrefix (GoStrings.TrimSpace s) "range " = false →
  GoStrings.HasPrefix (GoStrings.TrimSpace s) "reset range" = false →
  iteration data st (s, err) w = Some (Continue st', w') →
  graphOpts st' = graphOpts st ∧ render st' = false
  ∧ ∃ w1, renderBlock data st w = Some (tt, w1)
          ∧ files w' = files w1 ∧ execs w' = execs w1.
Proof.
  intros Hrange Hreset.
  destruct (renderBlock_run data st w) as (w1 & Hr & _).
  rewrite (iteration_run _ _ _ _ _ _ Hr).
  unfold command. rewrite Hrange, Hreset.
  destruct (isEOF err); [done|].
  destruct (String.eqb _ "quit"); [done|].
  destruct (String.eqb _ "h" || String.eqb _ "help").
  { intros [= <- <-]. split_and!; [done..|]. by exists w1. }
  destruct (String.length _ =? 0).
  { intros [= <- <-]. split_and!; [done..|]. by exists w1. }
  intros [= <- <-]. split_and!; [done..|]. by exists w1.
Qed.

Lemma other_lines_keep_window_witness :
  ∃ st' w',
    iteration (H:=goRuntime) scenario
      {| render := false;
         graphOpts := {| minTimeSeconds := 100; maxTimeSeconds := 150 |} |}
      (line "help") emptyWorld = Some (Continue st', w')
    ∧ graphOpts st' = {| minTimeSeconds := 100; maxTimeSeconds := 150 |}
    ∧ render st' = false
    ∧ ∃ w1,
        renderBlock (H:=goRuntime) scenario
          {| render := false;
             graphOpts := {| minTimeSeconds := 100; maxTimeSeconds := 150 |} |}
          emptyWorld = Some (tt, w1)
        ∧ files w' = files w1 ∧ execs w' = execs w1.
Proof.
  eexists _, _. split; [vm_compute; reflexivity|].
  apply (other_lines_keep_window (H:=goRuntime) scenario
           {| render := false;
              graphOpts := {| minTimeSeconds := 100; maxTimeSeconds := 150 |} |}
           _ ("help" +:+ newline) None emptyWorld).
  - vm_compute. reflexivity.
  - vm_compute. reflexivity.
  - vm_compute. reflexivity.
Defined.

(** X12. A [range] line with two bounds that parse sets both bounds of
    the window to their Unix times, whatever the window was, and leaves
    [render] set; the start is not compared with the end. *)
Theorem range_sets_both_bounds `{Runtime} (data : list FlatDatum)
    (st : mainState) (start end_ : string) (s e : Z) (w : World) :
  token start → token end_ → start ≠ "start" → end_ ≠ "end" →
  timeParse start = Ok s → timeParse end_ = Ok e →
  ∃ w1,
    renderBlock data st w = Some (tt, w1)
    ∧ iteration data st (line ("range " +:+ start +:+ " " +:+ end_)) w
      = Some (Continue {| render := true;
                          graphOpts := {| minTimeSeconds := s; maxTimeSeconds := e |} |},
              say (Print "$ ") w1).
Proof.
  intros Hs He Hkey%String.eqb_neq Hkey'%String.eqb_neq Hstart Hend.
  destruct (renderBlock_run data st w) as (w1 & Hr & _).
  exists w1. split; [done|].
  rewrite (iteration_range data _ _ _ _ _ Hr (proj2 Hs) He).
  unfold rangeStart, rangeEnd. by rewrite Hkey, Hstart, Hkey', Hend.
Qed.

(** A start after the end. *)
Lemma range_sets_both_bounds_witness :
  ∃ w1,
    renderBlock (H:=goRuntime) scenario initialState emptyWorld = Some (tt, w1)
    ∧ iteration (H:=goRuntime) scenario initialState
        (line ("range " +:+ "2024-09-24T18:30:00" +:+ " " +:+ "2024-09-24T18:00:00"))
        emptyWorld
      = Some (Continue {| render := true;
                          graphOpts := {| minTimeSeconds := 1727202600;
                                          maxTimeSeconds := 1727200800 |} |},
              say (Print "$ ") w1).
Proof.
  apply (range_sets_both_bounds (H:=goRuntime) scenario initialState
           "2024-09-24T18:30:00" "2024-09-24T18:00:00").
  - split; [discriminate|reflexivity].
  - split; [discriminate|reflexivity].
  - discriminate.
  - discriminate.
  - vm_compute. reflexivity.
  - vm_compute. reflexivity.
Defined.

Lemma loop_append `{Runtime} (data : list FlatDatum)
    (reads more : list (string * option error)) (st : mainState) (w : World) :
  loop data (reads ++ more) st w
  = bind (loop data reads st)
      (λ flow, match flow with
               | Continue st' => loop data more st'
               | Return => ret Return
               end) w.
Proof.
  revert st w. induction reads as [|r reads IH]; intros st w; simpl.
  { unfold bind, ret. done. }
  unfold bind in *. unfold ret.
  destruct (iteration data st r w) as [[[st'|] w']|]; [|done..].
  apply IH.
Qed.

(** X13. [quit], or the end of the input whatever text came with it,
    ends the loop for good: the iteration prints its farewell and
    returns, the window plays no part, and nothing of the input that
    follows is processed. *)
Theorem quit_or_eof_ends_loop `{Runtime} (data : list FlatDatum)
    (reads more : list (string * option error)) (s : string) (err : option error)
    (st st1 : mainState) (w w1 : World) :
  loop data reads st w = Some (Continue st1, w1) →
  isEOF err = true ∨ GoStrings.TrimSpace s = "quit" →
  ∃ w2,
    renderBlock data st1 w1 = Some (tt, w2)
    ∧ loop data (reads ++ (s, err) :: more) st w
      = Some (Return,
              say (Println [if isEOF err then newline +:+ "Exiting..." else "Exiting..."])
                  (say (Print "$ ") w2)).
Proof.
  intros Hloop Hend.
  destruct (renderBlock_run data st1 w1) as (w2 & Hr & _).
  exists w2. split; [done|].
  assert (iteration data st1 (s, err) w1
          = Some (Return,
                  say (Println [if isEOF err then newline +:+ "Exiting..."
                                else "Exiting..."])
                      (say (Print "$ ") w2))) as Hiter.
  { rewrite (iteration_run _ _ _ _ _ _ Hr). unfold command.
    destruct (isEOF err); [done|].
    destruct Hend as [?| ->]; done. }
  rewrite loop_append, (bind_run _ _ _ _ _ Hloop). simpl.
  by rewrite (bind_run _ _ _ _ _ Hiter).
Qed.

(** [quit] before a line that would make the loop panic. *)
Lemma quit_or_eof_ends_loop_witness :
  ∃ w2,
    renderBlock (H:=goRuntime) scenario initialState emptyWorld = Some (tt, w2)
    ∧ loop (H:=goRuntime) scenario ([] ++ line "quit" :: [line "range 100"])
        initialState emptyWorld
      = Some (Return,
              say (Println [if isEOF None then newline +:+ "Exiting..." else "Exiting..."])
                  (say (Print "$ ") w2)).
Proof.
  apply (quit_or_eof_ends_loop (H:=goRuntime) scenario [] [line "range 100"]
           ("quit" +:+ newline) None initialState initialState emptyWorld emptyWorld).
  - reflexivity.
  - right. vm_compute. reflexivity.
Defined.

(** ** Data files *)

(** X15. [getDatafile] creates the data file of a metric on first use
    and only then: it returns a handle that the map has for the metric
    from then on, a second call returns the same handle and changes
    nothing, and the entries of the other metrics are as they were. When
    the metric was not in the map, the handle is a new, open and empty
    file in the directory of the writer. *)
Theorem getDatafile_once (gpw : gnuplotWriter) (m : string) (w : World) :
  ∃ h gpw' w',
    getDatafile gpw m w = Some ((h, gpw'), w')
    ∧ metricFiles gpw' !! m = Some h
    ∧ getDatafile gpw' m w' = Some ((h, gpw'), w')
    ∧ (∀ m', m' ≠ m → metricFiles gpw' !! m' = metricFiles gpw !! m')
    ∧ (is_Some (metricFiles gpw !! m) → gpw' = gpw ∧ w' = w)
    ∧ (metricFiles gpw !! m = None →
       h = length (files w)
       ∧ files w'
         = files w ++ [mkFile (tempdir gpw +:+ "/" +:+ "" +:+ decimal (entropy w)) [] false]).
Proof.
  unfold getDatafile at 1. destruct (metricFiles gpw !! m) as [h|] eqn:Hm.
  - exists h, gpw, w. unfold getDatafile. rewrite Hm.
    split_and!; [done..|]. done.
  - eexists _, _, _. split; [reflexivity|]. simpl. unfold getDatafile. simpl.
    rewrite lookup_insert_eq.
    split_and!; [done..| | |done].
    + intros m' Hne. by rewrite lookup_insert_ne.
    + by intros [? ?].
Qed.

(** X16. [CompileAndClose] can run again on the same writer: the data
    files are closed by then, closing them again is harmless, and the
    second script has the same preamble and again one directive per
    metric. *)
Theorem CompileAndClose_again `{Runtime}
    (gpw : gnuplotWriter) (w w1 : World) (pts : string → list Line)
    (filename : string) :
  routed gpw w pts →
  CompileAndClose gpw w = Some (filename, w1) →
  ∃ filename2 w2 script2,
    CompileAndClose gpw w1 = Some (filename2, w2)
    ∧ files w2 !! length (files w1) = Some script2
    ∧ take 8 (fileLines script2) = preamble (size (metricFiles gpw))
    ∧ length (plotDirectives script2) = size (metricFiles gpw)
    ∧ ∀ m h, metricFiles gpw !! m = Some h →
        ∃ f, files w2 !! h = Some f ∧ fileLines f = pts m ∧ fileClosed f = true.
Proof.
  intros Hr Hrun.
  destruct (CompileAndClose_files _ _ _ _ Hrun) as (_ & Hframe & _).
  assert (∀ m h, metricFiles gpw !! m = Some h →
            ∃ name, files w1 !! h = Some (mkFile name (pts m) true)) as Hclosed.
  { intros m h Hm. destruct (routed_some _ _ _ Hr _ _ Hm) as (name & Hh & _).
    exists name. rewrite (Hframe _ _ Hh). simpl.
    rewrite bool_decide_eq_true_2; [done|]. apply elem_of_dataFiles. by exists m. }
  assert (∀ m h, metricFiles gpw !! m = Some h → is_Some (files w1 !! h)) as Hvalid.
  { intros m h Hm. destruct (Hclosed _ _ Hm) as [name ->]. eauto. }
  destruct (CompileAndClose_run gpw w1 Hvalid) as (w2 & Hrun2 & Hscript & _).
  destruct (CompileAndClose_files _ _ _ _ Hrun2) as (_ & Hframe2 & _).
  eexists _, w2, _. split_and!; [done..| | |].
  - done.
  - unfold plotDirectives, plotLines. simpl. rewrite drop_0, List.length_map.
    rewrite (Permutation_length (mapRange_perm _ _)).
    apply length_map_to_list.
  - intros m h Hm. destruct (Hclosed _ _ Hm) as [name Hh].
    eexists. rewrite (Hframe2 _ _ Hh). simpl. done.
Qed.

Lemma CompileAndClose_again_witness :
  ∃ filename w1 filename2 w2 script2,
    CompileAndClose (H:=goRuntime) writerWithCpu worldWithCpu = Some (filename, w1)
    ∧ CompileAndClose (H:=goRuntime) writerWithCpu w1 = Some (filename2, w2)
    ∧ files w2 !! length (files w1) = Some script2
    ∧ take 8 (fileLines script2) = preamble (size (metricFiles writerWithCpu))
    ∧ length (plotDirectives script2) = size (metricFiles writerWithCpu)
    ∧ ∀ m h, metricFiles writerWithCpu !! m = Some h →
        ∃ f, files w2 !! h = Some f ∧ fileLines f = pointsWithCpu m
             ∧ fileClosed f = true.
Proof.
  eexists _, _. 
  assert (CompileAndClose (H:=goRuntime) writerWithCpu worldWithCpu
          = Some ("/tmp/ftdc_parser0/main2",
                  mkWorld
                    [mkFile "/tmp/ftdc_parser0/1" [Point 100 1065353216%Z] true;
                     mkFile "/tmp/ftdc_parser0/main2"
                       (preamble 1
                        ++ [Text (plotLine "/tmp/ftdc_parser0/1" "cpu")]) true]
                    [Println ["Output file: `plot.png`"]] [] 4)) as Hrun
    by (vm_compute; reflexivity).
  destruct (CompileAndClose_again (H:=goRuntime) writerWithCpu worldWithCpu _
              pointsWithCpu _ routed_withCpu Hrun) as (fn2 & w2 & script2 & Hconcl).
  exists fn2, w2, script2. split; [exact Hrun|exact Hconcl].
Defined.
